(** * MemTableFile: the in-memory write buffer of the insert path

    A shallow embedding of [core/src/db/insert/MemTableFile.cpp] and the
    properties of its admission ([Add]), delete ([Delete]), fullness
    ([IsFull]) and flush ([Serialize]) operations.

    Conventions.
    - A [size_t] is a [Z] in [0, 2^64); every [size_t] operation of the
      source is written with its wrap-around ([SizeT.wrap]).
    - A call whose behaviour the language leaves undefined (dereferencing
      the absent segment writer, dividing by a zero vector size, converting
      an out-of-range double to [size_t]) yields [Undefined]; every other
      call yields [Returns].
    - The collaborators whose code lives in other files of the repository
      (catalog, vector source, segment writer) appear as records of
      functions or as section variables; what is known of them comes from
      the calls made on them here and from the specification. *)

From Stdlib Require Import ZArith Lia.
From stdpp Require Import base tactics option list gmap strings.

Local Open Scope Z_scope.

(** ** Results of calls that may be undefined *)

Inductive outcome (A : Type) : Type :=
  | Returns (a : A)
  | Undefined.
Arguments Returns {A} a.
Arguments Undefined {A}.

Global Instance outcome_ret : MRet outcome := fun _ a => Returns a.
Global Instance outcome_bind : MBind outcome := fun _ _ f m =>
  match m with
  | Returns a => f a
  | Undefined => Undefined
  end.

(** [deref p]: [*p] for a shared pointer that may be null. *)
Definition deref {A} (p : option A) : outcome A :=
  match p with
  | Some a => Returns a
  | None => Undefined
  end.

(** ** Machine arithmetic *)

Module SizeT.

Definition bits : Z := 64.
Definition modulus : Z := 2 ^ bits.

(** Reduction of a mathematical integer to its [size_t] value. *)
Definition wrap (n : Z) : Z := n mod modulus.

Definition in_range (n : Z) : Prop := 0 <= n < modulus.

(** [a / b] on [size_t]: truncating, undefined for [b = 0]. *)
Definition div (a b : Z) : outcome Z :=
  if b =? 0 then Undefined else Returns (a / b).

End SizeT.

Module Double.

(** Only integer-valued doubles occur in this file; such a double is
    represented by the integer it holds. *)

Definition mantissa_bits : Z := 53.

(** Conversion of a non-negative integer to [double], IEEE-754 binary64,
    round to nearest, ties to even.  Integers below [2^53] are exact. *)
Definition of_size_t (n : Z) : Z :=
  if n <? 2 ^ mantissa_bits then n
  else
    let e := Z.log2 n - (mantissa_bits - 1) in
    let m := Z.shiftr n e in
    let rest := Z.land n (Z.ones e) in
    let half := Z.shiftl 1 (e - 1) in
    let m' :=
      if rest <? half then m
      else if half <? rest then m + 1
      else if Z.even m then m else m + 1 in
    Z.shiftl m' e.

(** [std::ceil] of an integer-valued double is that double. *)
Definition ceil (d : Z) : Z := d.

(** Conversion back to [size_t]: undefined when the value does not fit. *)
Definition to_size_t (d : Z) : outcome Z :=
  if d <? SizeT.modulus then Returns d else Undefined.

End Double.

(** ** Status *)

(** Error codes are declared in [utils/Error.h]; the only one this file
    names is [DB_ERROR].  Codes produced by collaborators are [OTHER]. *)
Inductive StatusCode : Type :=
  | SUCCESS
  | DB_ERROR
  | OTHER (code : Z).

Record Status : Type := mkStatus {
  code : StatusCode;
  message : string
}.

Definition Status_OK : Status := mkStatus SUCCESS "".

Definition ok (s : Status) : bool :=
  match code s with
  | SUCCESS => true
  | _ => false
  end.

(** ** Catalog records ([namespace meta]) *)

Module meta.

(** The two classifications [Serialize] assigns. *)
Inductive FILE_TYPE : Type := RAW | TO_INDEX.

(** The fields of [meta::TableFileSchema] this file reads or writes.
    [dimension_], [engine_type_], [metric_type_] and [index_file_size_]
    are integers; where the source mixes one of them with a [size_t] its
    conversion to [size_t] is written out at that place. *)
Record TableFileSchema : Type := mkTableFileSchema {
  table_id_ : string;
  file_id_ : string;
  directory_ : string;
  dimension_ : Z;
  engine_type_ : Z;
  metric_type_ : Z;
  index_file_size_ : Z;
  file_type_ : FILE_TYPE
}.

Definition set_table_id (v : string) (s : TableFileSchema) : TableFileSchema :=
  mkTableFileSchema v (file_id_ s) (directory_ s) (dimension_ s)
    (engine_type_ s) (metric_type_ s) (index_file_size_ s) (file_type_ s).

Definition set_file_type (v : FILE_TYPE) (s : TableFileSchema) : TableFileSchema :=
  mkTableFileSchema (table_id_ s) (file_id_ s) (directory_ s) (dimension_ s)
    (engine_type_ s) (metric_type_ s) (index_file_size_ s) v.

(** Modelled from the spec: the default-constructed schema
    ([db/meta/MetaTypes.h] is not part of this file).  An object whose
    catalog record could not be created keeps it, and must then reject
    admission for want of a positive dimension. *)
Definition default_TableFileSchema : TableFileSchema :=
  mkTableFileSchema "" "" "" 0 0 0 0 RAW.

(** Modelled from the spec: the catalog interface ([meta::Meta]),
    [createFileRecord] filling in the record it is handed and
    [updateFileRecord] reporting success or a store error. *)
Record Meta : Type := mkMeta {
  CreateTableFile : TableFileSchema -> Status * TableFileSchema;
  UpdateTableFile : TableFileSchema -> Status
}.

End meta.

(** ** Segments ([namespace segment]) *)

Module segment.

Definition doc_id_t : Type := Z.

(** One vector's bytes. *)
Definition payload : Type := list Z.

(** Modelled from the spec: a group's buffer of (logical id, payload)
    pairs ([segment/Vector.h] is not part of this file). *)
Record Vector : Type := mkVector {
  entries : list (doc_id_t * payload)
}.

Definition GetUids (v : Vector) : list doc_id_t := (entries v).*1.

(** Modelled from the spec: [erase(offset, elementWidth)] removes the
    entry at vector offset [offset]; [vector_type_size] is the width of
    one element of its payload. *)
Definition Erase (offset : nat) (vector_type_size : Z) (v : Vector) : Vector :=
  mkVector (delete offset (entries v)).

(** Modelled from the spec: the live segment, a map from group name to
    buffer and the ordered list of logically deleted ids. *)
Record Segment : Type := mkSegment {
  vectors : gmap string Vector;
  deleted_docs : list doc_id_t
}.

Definition AddDeleteDoc (doc_id : doc_id_t) (s : Segment) : Segment :=
  mkSegment (vectors s) (deleted_docs s ++ [doc_id]).

Record SegmentWriter : Type := mkSegmentWriter {
  writer_directory : string;
  segment_ptr_ : Segment
}.

Definition new_SegmentWriter (directory : string) : SegmentWriter :=
  mkSegmentWriter directory (mkSegment ∅ []).

Definition GetSegment (w : SegmentWriter) : Segment := segment_ptr_ w.

Definition set_segment (s : Segment) (w : SegmentWriter) : SegmentWriter :=
  mkSegmentWriter (writer_directory w) s.

End segment.


(** ** Options ([DBOptions]) *)

Record DBOptions : Type := mkDBOptions {
  insert_cache_immediately_ : bool
}.

(** ** The vector source ([VectorSource]) *)

Module VectorSource.

(** Modelled from the spec: the vector source as one [Add] call sees it
    ([db/insert/VectorSource.cpp] is not part of this file).
    [SingleVectorSize dimension] is the byte footprint of one vector;
    [Add writer schema num_vectors_to_add] hands the writer to the source
    and yields the status, the count written to [num_vectors_added] and
    the writer as the source leaves it.  A source that is used for several
    calls is one record per call, each describing it at that call. *)
Record t : Type := mk {
  SingleVectorSize : Z -> Z;
  Add : option segment.SegmentWriter -> meta.TableFileSchema -> Z ->
        Status * Z * option segment.SegmentWriter
}.

End VectorSource.

(** ** Constants *)

(** Modelled from the spec: the width of a [float] element, 4 bytes
    ([FLOAT_TYPE_SIZE] of [db/Constants.h], [sizeof(float)]). *)
Definition FLOAT_TYPE_SIZE : Z := 4.
Definition sizeof_float : Z := 4.
Definition sizeof_uint8_t : Z := 1.

(** ** The write buffer *)

Module MemTableFile.

(** The data members of the class. *)
Record t : Type := mk {
  table_id_ : string;
  meta_ : meta.Meta;
  options_ : DBOptions;
  table_file_schema_ : meta.TableFileSchema;
  current_mem_ : Z;
  segment_writer_ptr_ : option segment.SegmentWriter
}.

Definition set_table_file_schema (v : meta.TableFileSchema) (self : t) : t :=
  mk (table_id_ self) (meta_ self) (options_ self) v
     (current_mem_ self) (segment_writer_ptr_ self).

Definition set_current_mem (v : Z) (self : t) : t :=
  mk (table_id_ self) (meta_ self) (options_ self) (table_file_schema_ self)
     v (segment_writer_ptr_ self).

Definition set_segment_writer_ptr (v : option segment.SegmentWriter) (self : t) : t :=
  mk (table_id_ self) (meta_ self) (options_ self) (table_file_schema_ self)
     (current_mem_ self) v.

Section Operations.

(** The per-file memory budget ([db/Constants.h]). *)
Variable MAX_TABLE_FILE_MEM : Z.

(** [(int)EngineType::FAISS_IDMAP] and [(int)EngineType::FAISS_BIN_IDMAP]
    ([db/engine/ExecutionEngine.h]). *)
Variables FAISS_IDMAP FAISS_BIN_IDMAP : Z.

(** [server::ValidationUtil::IsBinaryMetricType]. *)
Variable IsBinaryMetricType : Z -> bool.

(** The segment writer's durable write and cache warm-up: the status of
    the write and the writer afterwards. *)
Variable SegmentWriter_Serialize : segment.SegmentWriter -> Status * segment.SegmentWriter.
Variable SegmentWriter_Cache : segment.SegmentWriter -> segment.SegmentWriter.

Definition CreateTableFile (self : t) : Status * t :=
  let table_file_schema :=
    meta.set_table_id (table_id_ self) meta.default_TableFileSchema in
  let '(status, table_file_schema) :=
    meta.CreateTableFile (meta_ self) table_file_schema in
  if ok status
  then (status, set_table_file_schema table_file_schema self)
  else (status, self).

(** The constructor. *)
Definition new (table_id : string) (meta : meta.Meta) (options : DBOptions) : t :=
  let self := mk table_id meta options meta.default_TableFileSchema 0 None in
  let '(status, self) := CreateTableFile self in
  if ok status
  then set_segment_writer_ptr
         (Some (segment.new_SegmentWriter
                  (meta.directory_ (table_file_schema_ self)))) self
  else self.

Definition GetCurrentMem (self : t) : Z := current_mem_ self.

Definition GetMemLeft (self : t) : Z :=
  SizeT.wrap (MAX_TABLE_FILE_MEM - current_mem_ self).

Definition IsFull (self : t) : bool :=
  let single_vector_mem_size :=
    SizeT.wrap (meta.dimension_ (table_file_schema_ self) * FLOAT_TYPE_SIZE) in
  GetMemLeft self <? single_vector_mem_size.

Definition Add (source : VectorSource.t) (self : t) : outcome (Status * t) :=
  if meta.dimension_ (table_file_schema_ self) <=? 0 then
    mret (mkStatus DB_ERROR "Not able to create table file", self)
  else
    let single_vector_mem_size :=
      VectorSource.SingleVectorSize source
        (meta.dimension_ (table_file_schema_ self)) in
    let mem_left := GetMemLeft self in
    if single_vector_mem_size <=? mem_left then
      quotient ← SizeT.div mem_left single_vector_mem_size;
      num_vectors_to_add ←
        Double.to_size_t (Double.ceil (Double.of_size_t quotient));
      let '(status, num_vectors_added, writer) :=
        VectorSource.Add source (segment_writer_ptr_ self)
          (table_file_schema_ self) num_vectors_to_add in
      let self := set_segment_writer_ptr writer self in
      if ok status then
        mret (status,
              set_current_mem
                (SizeT.wrap (current_mem_ self
                             + num_vectors_added * single_vector_mem_size))
                self)
      else mret (status, self)
    else mret (Status_OK, self).

(** One pass of the loop of [Delete] over a group: [std::find] on the
    group's ids, then [Erase] at the offset of the first match. *)
Definition erase_found (doc_id : segment.doc_id_t) (vector_type_size : Z)
    (v : segment.Vector) : segment.Vector :=
  match list_find (fun uid => uid = doc_id) (segment.GetUids v) with
  | Some (offset, _) => segment.Erase offset vector_type_size v
  | None => v
  end.

(** [vectors_map] is a copy of the map, but of shared pointers: the
    buffers erased through it are the segment's own. *)
Definition Delete (doc_id : segment.doc_id_t) (self : t) : outcome (Status * t) :=
  let vector_type_size :=
    if IsBinaryMetricType (meta.metric_type_ (table_file_schema_ self))
    then sizeof_uint8_t else sizeof_float in
  writer ← deref (segment_writer_ptr_ self);
  let segment_ptr := segment.GetSegment writer in
  let vectors_map := segment.vectors segment_ptr in
  let vectors_map := erase_found doc_id vector_type_size <$> vectors_map in
  let segment_ptr :=
    segment.AddDeleteDoc doc_id
      (segment.mkSegment vectors_map (segment.deleted_docs segment_ptr)) in
  mret (Status_OK,
        set_segment_writer_ptr
          (Some (segment.set_segment segment_ptr writer)) self).

(** The status of the writer's [Serialize] is not looked at; the status
    returned is that of the catalog update.  In [size >= index_file_size_]
    the left operand is a [size_t], so the threshold is converted to
    [size_t] before the comparison: a negative one becomes a huge one. *)
Definition Serialize (self : t) : outcome (Status * t) :=
  let size := GetCurrentMem self in
  writer ← deref (segment_writer_ptr_ self);
  let '(_, writer) := SegmentWriter_Serialize writer in
  let schema := table_file_schema_ self in
  let schema :=
    if negb (meta.engine_type_ schema =? FAISS_IDMAP)
       && negb (meta.engine_type_ schema =? FAISS_BIN_IDMAP)
    then meta.set_file_type
           (if SizeT.wrap (meta.index_file_size_ schema) <=? size
            then meta.TO_INDEX else meta.RAW) schema
    else meta.set_file_type meta.RAW schema in
  let status := meta.UpdateTableFile (meta_ self) schema in
  let writer :=
    if insert_cache_immediately_ (options_ self)
    then SegmentWriter_Cache writer else writer in
  mret (status,
        set_segment_writer_ptr (Some writer)
          (set_table_file_schema schema self)).

End Operations.

End MemTableFile.

(** ** Sequences of admissions *)

(** [AddAll sources self] issues one [Add] per element of [sources], in
    order, and collects the object as it stands after every call. *)
Fixpoint AddAll (MAX_TABLE_FILE_MEM : Z) (sources : list VectorSource.t)
    (self : MemTableFile.t) : outcome (list MemTableFile.t) :=
  match sources with
  | [] => mret []
  | source :: sources =>
      '(_, self) ← MemTableFile.Add MAX_TABLE_FILE_MEM source self;
      states ← AddAll MAX_TABLE_FILE_MEM sources self;
      mret (self :: states)
  end.

(** ** Sequences of deletes *)

(** [DeleteAll ids self] issues one [Delete] per element of [ids], in
    order, and yields the object after the last call. *)
Fixpoint DeleteAll (IsBinaryMetricType : Z -> bool)
    (ids : list segment.doc_id_t) (self : MemTableFile.t) : outcome MemTableFile.t :=
  match ids with
  | [] => mret self
  | doc_id :: ids =>
      '(_, self) ← MemTableFile.Delete IsBinaryMetricType doc_id self;
      DeleteAll IsBinaryMetricType ids self
  end.

(** The segment a buffer's writer holds, when it has a writer. *)
Definition live_segment_of (self : MemTableFile.t) : option segment.Segment :=
  segment.GetSegment <$> MemTableFile.segment_writer_ptr_ self.

(** ** Assumptions on the collaborators *)

(** Asked for a count [n], the source writes a count between 0 and [n]
    whenever it reports success. *)
Definition admits_at_most_requested (source : VectorSource.t) : Prop :=
  forall writer schema n status added writer',
    0 <= n ->
    VectorSource.Add source writer schema n = (status, added, writer') ->
    ok status = true -> 0 <= added <= n.

(** The source reports a positive byte footprint at dimension [d]. *)
Definition positive_footprint (source : VectorSource.t) (d : Z) : Prop :=
  0 < VectorSource.SingleVectorSize source d.

(** ** The specification's per-vector size *)

(** [bytesPerVector] in the words of the specification: a fixed element
    width, 4 bytes for standard metric types and 1 byte for binary ones,
    times the dimension.  It is compared with what [IsFull] computes. *)
Definition bytesPerVector_spec (binary_metric : bool) (dimension : Z) : Z :=
  dimension * (if binary_metric then 1 else 4).

(** ** Sample collaborators and objects *)

Module Samples.

Definition budget : Z := 64.
Definition idmap : Z := 1.
Definition bin_idmap : Z := 2.
Definition ivf : Z := 3.

(** Metric type 1 is the binary one of the samples. *)
Definition is_binary (metric_type : Z) : bool := metric_type =? 1.

Definition catalog : meta.Meta :=
  meta.mkMeta
    (fun schema =>
       (Status_OK,
        meta.mkTableFileSchema (meta.table_id_ schema) "f1" "/db/t/f1"
          4 ivf 0 32 meta.RAW))
    (fun _ => Status_OK).

Definition failing_catalog : meta.Meta :=
  meta.mkMeta
    (fun schema => (mkStatus (OTHER 7) "catalog down", schema))
    (fun _ => mkStatus (OTHER 7) "catalog down").

Definition options : DBOptions := mkDBOptions false.

(** Durable writes that succeed, and that fail. *)
Definition write_ok (w : segment.SegmentWriter) : Status * segment.SegmentWriter :=
  (Status_OK, w).
Definition write_fails (w : segment.SegmentWriter) : Status * segment.SegmentWriter :=
  (mkStatus (OTHER 5) "disk full", w).
Definition cache (w : segment.SegmentWriter) : segment.SegmentWriter := w.

(** A source of float vectors holding [available] of them: it pushes
    nothing into the writer's buffers but reports how many it admits. *)
Definition float_source (available : Z) : VectorSource.t :=
  VectorSource.mk
    (fun dimension => dimension * FLOAT_TYPE_SIZE)
    (fun writer _ n => (Status_OK, Z.min available n, writer)).

(** A fresh buffer of dimension 4: 16 bytes a vector, room for 4. *)
Definition fresh : MemTableFile.t := MemTableFile.new "t" catalog options.

(** The same buffer with [used] bytes counted. *)
Definition filled (used : Z) : MemTableFile.t :=
  MemTableFile.set_current_mem used fresh.

(** A buffer whose catalog record could not be created. *)
Definition unusable : MemTableFile.t :=
  MemTableFile.new "t" failing_catalog options.

(** A buffer of a binary-metric table, dimension 4, 56 of 64 bytes used. *)
Definition binary_buffer : MemTableFile.t :=
  MemTableFile.mk "b" catalog options
    (meta.mkTableFileSchema "b" "f2" "/db/b/f2" 4 bin_idmap 1 32 meta.RAW)
    56 (Some (segment.new_SegmentWriter "/db/b/f2")).

(** A buffer holding ids 10, 20, 10 in group [g] and 30 in group [h]. *)
Definition live_segment : segment.Segment :=
  segment.mkSegment
    (<["g" := segment.mkVector [(10, [1]); (20, [2]); (10, [3])]]>
       (<["h" := segment.mkVector [(30, [4])]]> ∅))
    [].

Definition live : MemTableFile.t :=
  MemTableFile.set_segment_writer_ptr
    (Some (segment.mkSegmentWriter "/db/t/f1" live_segment))
    (filled 48).

(** A source that fails without writing anything. *)
Definition failing_source : VectorSource.t :=
  VectorSource.mk
    (fun dimension => dimension * FLOAT_TYPE_SIZE)
    (fun writer _ _ => (mkStatus (OTHER 9) "source failed", 0, writer)).

(** A source that holds no data and reports a vector size of 0. *)
Definition empty_source : VectorSource.t :=
  VectorSource.mk (fun _ => 0) (fun writer _ _ => (Status_OK, 0, writer)).

(** A source that reports one vector more than it was asked for. *)
Definition overrunning_source : VectorSource.t :=
  VectorSource.mk
    (fun dimension => dimension * FLOAT_TYPE_SIZE)
    (fun writer _ n => (Status_OK, n + 1, writer)).

End Samples.

(** * Properties *)

(** ** Arithmetic facts *)

Lemma wrap_in_range (n : Z) : SizeT.in_range n -> SizeT.wrap n = n.
Proof. unfold SizeT.in_range, SizeT.wrap. intros H. apply Z.mod_small; lia. Qed.

Lemma double_exact (n : Z) : n < 2 ^ 53 -> Double.of_size_t n = n.
Proof.
  intros H. unfold Double.of_size_t, Double.mantissa_bits.
  destruct (Z.ltb_spec n (2 ^ 53)); [reflexivity | lia].
Qed.

Lemma modulus_value : SizeT.modulus = 18446744073709551616.
Proof. reflexivity. Qed.

(** Above [2^53] the conversion rounds: [2^62 - 1] becomes [2^62]. *)
Example double_rounds : Double.of_size_t (2 ^ 62 - 1) = 2 ^ 62.
Proof. reflexivity. Qed.

Section Properties.

Variable MAX_TABLE_FILE_MEM : Z.
Variables FAISS_IDMAP FAISS_BIN_IDMAP : Z.
Variable IsBinaryMetricType : Z -> bool.
Variable SegmentWriter_Serialize : segment.SegmentWriter -> Status * segment.SegmentWriter.
Variable SegmentWriter_Cache : segment.SegmentWriter -> segment.SegmentWriter.

Local Abbreviation GetMemLeft := (MemTableFile.GetMemLeft MAX_TABLE_FILE_MEM).
Local Abbreviation IsFull := (MemTableFile.IsFull MAX_TABLE_FILE_MEM).
Local Abbreviation Add := (MemTableFile.Add MAX_TABLE_FILE_MEM).
Local Abbreviation Delete := (MemTableFile.Delete IsBinaryMetricType).
Local Abbreviation Serialize :=
  (MemTableFile.Serialize FAISS_IDMAP FAISS_BIN_IDMAP
     SegmentWriter_Serialize SegmentWriter_Cache).
Local Abbreviation dimension self :=
  (meta.dimension_ (MemTableFile.table_file_schema_ self)).
Local Abbreviation current_mem_ := MemTableFile.current_mem_.

(** While the counter is within the budget, [GetMemLeft] is the true
    difference. *)
Lemma GetMemLeft_within (self : MemTableFile.t) :
  MAX_TABLE_FILE_MEM < SizeT.modulus ->
  0 <= current_mem_ self <= MAX_TABLE_FILE_MEM ->
  GetMemLeft self = MAX_TABLE_FILE_MEM - current_mem_ self.
Proof.
  intros Hmax Hcur. unfold MemTableFile.GetMemLeft.
  apply wrap_in_range. unfold SizeT.in_range. lia.
Qed.

Lemma GetMemLeft_range (self : MemTableFile.t) : SizeT.in_range (GetMemLeft self).
Proof.
  unfold MemTableFile.GetMemLeft, SizeT.wrap, SizeT.in_range.
  apply Z.mod_pos_bound. reflexivity.
Qed.

(** The admission branch of [Add], once the guards are passed and the
    quotient is small enough to be held exactly by a double. *)
Lemma Add_admits (source : VectorSource.t) (self : MemTableFile.t) :
  let size := VectorSource.SingleVectorSize source (dimension self) in
  0 < dimension self ->
  0 < size <= GetMemLeft self ->
  GetMemLeft self / size < 2 ^ 53 ->
  Add source self =
    let '(status, added, writer) :=
      VectorSource.Add source (MemTableFile.segment_writer_ptr_ self)
        (MemTableFile.table_file_schema_ self) (GetMemLeft self / size) in
    let self := MemTableFile.set_segment_writer_ptr writer self in
    Returns (status,
             if ok status
             then MemTableFile.set_current_mem
                    (SizeT.wrap (current_mem_ self + added * size)) self
             else self).
Proof.
  intros size Hdim Hsize Hq. unfold MemTableFile.Add. fold size.
  destruct (Z.leb_spec (dimension self) 0); [lia|].
  destruct (Z.leb_spec size (GetMemLeft self)); [|lia].
  unfold SizeT.div. destruct (Z.eqb_spec size 0); [lia|].
  cbn [mbind outcome_bind]. rewrite double_exact by assumption.
  unfold Double.ceil, Double.to_size_t.
  destruct (Z.ltb_spec (GetMemLeft self / size) SizeT.modulus) as [_|Hbig].
  - cbn [mbind outcome_bind].
    destruct (VectorSource.Add _ _ _ _) as [[status added] writer].
    destruct (ok status); reflexivity.
  - rewrite modulus_value in Hbig. lia.
Qed.

(** ** Admission *)

(** C9.  On a buffer whose schema dimension is not positive, [Add] fails
    with the [DB_ERROR] status and returns the object as it was: neither
    the byte counter nor the segment writer is touched, and the source is
    not consulted. *)
Theorem Add_rejects_nonpositive_dimension
    (source : VectorSource.t) (self : MemTableFile.t) :
  dimension self <= 0 ->
  Add source self =
    Returns (mkStatus DB_ERROR "Not able to create table file", self).
Proof.
  intros Hdim. unfold MemTableFile.Add.
  destruct (Z.leb_spec (dimension self) 0); [reflexivity | lia].
Qed.

(** A buffer whose catalog record could not be created has the default
    schema, of dimension 0, and no segment writer. *)
Lemma new_failed (table_id : string) (meta : meta.Meta) (options : DBOptions) :
  ok (meta.CreateTableFile meta
        (meta.set_table_id table_id meta.default_TableFileSchema)).1 = false ->
  let self := MemTableFile.new table_id meta options in
  dimension self = 0 /\ MemTableFile.segment_writer_ptr_ self = None
  /\ current_mem_ self = 0.
Proof.
  intros Hfail. unfold MemTableFile.new, MemTableFile.CreateTableFile.
  cbn [MemTableFile.table_id_ MemTableFile.meta_].
  destruct (meta.CreateTableFile _ _) as [status schema].
  cbn [fst] in Hfail. rewrite Hfail. cbn. rewrite Hfail. cbn. auto.
Qed.

(** C3.  On a buffer of positive dimension whose remaining budget is
    smaller than one vector, [Add] returns success and the object as it
    was: nothing is admitted, the counter and the writer are unchanged. *)
Theorem Add_without_room (source : VectorSource.t) (self : MemTableFile.t) :
  0 < dimension self ->
  GetMemLeft self < VectorSource.SingleVectorSize source (dimension self) ->
  Add source self = Returns (Status_OK, self).
Proof.
  intros Hdim Hleft. unfold MemTableFile.Add.
  destruct (Z.leb_spec (dimension self) 0); [lia|].
  destruct (Z.leb_spec (VectorSource.SingleVectorSize source (dimension self))
              (GetMemLeft self)); [lia | reflexivity].
Qed.

(** C2.  On a buffer of positive dimension whose counter is within a
    budget below 2^53 and whose remaining budget holds at least one vector
    of the (positive) size the source reports, the count [Add] asks the
    source for is the quotient of the remaining budget by that size,
    rounded toward zero; the counter then grows by what the source
    admitted. *)
Theorem Add_requests_floor (source : VectorSource.t) (self : MemTableFile.t) :
  let size := VectorSource.SingleVectorSize source (dimension self) in
  MAX_TABLE_FILE_MEM < 2 ^ 53 ->
  0 <= current_mem_ self <= MAX_TABLE_FILE_MEM ->
  0 < dimension self ->
  0 < size <= GetMemLeft self ->
  exists status added writer,
    VectorSource.Add source (MemTableFile.segment_writer_ptr_ self)
      (MemTableFile.table_file_schema_ self) (GetMemLeft self / size)
    = (status, added, writer)
    /\ GetMemLeft self / size * size <= GetMemLeft self
         < (GetMemLeft self / size + 1) * size
    /\ Add source self =
         Returns (status,
                  if ok status
                  then MemTableFile.set_current_mem
                         (SizeT.wrap (current_mem_ self + added * size))
                         (MemTableFile.set_segment_writer_ptr writer self)
                  else MemTableFile.set_segment_writer_ptr writer self).
Proof.
  intros size Hmax Hcur Hdim Hsize.
  assert (Hleft : GetMemLeft self = MAX_TABLE_FILE_MEM - current_mem_ self).
  { apply GetMemLeft_within; [rewrite modulus_value|]; lia. }
  assert (Hq : GetMemLeft self / size < 2 ^ 53).
  { apply Z.le_lt_trans with (GetMemLeft self); [|lia].
    apply Z.div_le_upper_bound; nia. }
  pose proof (Add_admits source self Hdim Hsize Hq) as Hadd.
  fold size in Hadd.
  destruct (VectorSource.Add _ _ _ _) as [[status added] writer].
  exists status, added, writer. split; [reflexivity|]. split.
  - pose proof (Z.div_mod (GetMemLeft self) size) as Hdm.
    pose proof (Z.mod_pos_bound (GetMemLeft self) size) as Hmod. lia.
  - exact Hadd.
Qed.

(** One admission keeps the counter within the budget and leaves the
    schema alone. *)
Lemma Add_within_budget (source : VectorSource.t) (self : MemTableFile.t) :
  MAX_TABLE_FILE_MEM < 2 ^ 53 ->
  0 <= current_mem_ self <= MAX_TABLE_FILE_MEM ->
  0 < dimension self ->
  positive_footprint source (dimension self) ->
  admits_at_most_requested source ->
  exists status self',
    Add source self = Returns (status, self')
    /\ 0 <= current_mem_ self' <= MAX_TABLE_FILE_MEM
    /\ current_mem_ self <= current_mem_ self'
    /\ MemTableFile.table_file_schema_ self' = MemTableFile.table_file_schema_ self.
Proof.
  intros Hmax Hcur Hdim Hpos Hsrc. unfold positive_footprint in Hpos.
  set (size := VectorSource.SingleVectorSize source (dimension self)) in *.
  assert (Hleft : GetMemLeft self = MAX_TABLE_FILE_MEM - current_mem_ self).
  { apply GetMemLeft_within; [rewrite modulus_value|]; lia. }
  destruct (Z.le_gt_cases size (GetMemLeft self)) as [Hroom|Hfull].
  - assert (Hq : GetMemLeft self / size < 2 ^ 53).
    { apply Z.le_lt_trans with (GetMemLeft self); [|lia].
      apply Z.div_le_upper_bound; nia. }
    rewrite (Add_admits source self Hdim (conj Hpos Hroom) Hq). fold size.
    destruct (VectorSource.Add _ _ _ _) as [[status added] writer] eqn:Hcall.
    destruct (ok status) eqn:Hok.
    + eexists _, _. split; [reflexivity|]. cbn.
      pose proof (Z.mul_div_le (GetMemLeft self) size Hpos) as Hlow.
      assert (Hq0 : 0 <= GetMemLeft self / size) by (apply Z.div_pos; lia).
      destruct (Hsrc _ _ _ _ _ _ Hq0 Hcall Hok) as [Ha0 Han].
      assert (Hle : added * size <= GetMemLeft self) by nia.
      rewrite wrap_in_range by (unfold SizeT.in_range; rewrite modulus_value; nia).
      repeat split; nia.
    + eexists _, _. split; [reflexivity|]. cbn. repeat split; lia.
  - unfold MemTableFile.Add. fold size.
    destruct (Z.leb_spec (dimension self) 0); [lia|].
    destruct (Z.leb_spec size (GetMemLeft self)); [lia|].
    eexists _, _. split; [reflexivity|]. repeat split; lia.
Qed.

(** C1.  Starting from a buffer of positive dimension whose counter is
    within the budget (a fresh buffer counts 0), with a budget below 2^53,
    every sequence of [Add] calls on sources that report a positive vector
    size and admit no more than they are asked for runs to its end, and
    the counter is at most [MAX_TABLE_FILE_MEM] after every call. *)
Theorem AddAll_within_budget (sources : list VectorSource.t) (self : MemTableFile.t) :
  0 <= MAX_TABLE_FILE_MEM < 2 ^ 53 ->
  0 <= current_mem_ self <= MAX_TABLE_FILE_MEM ->
  0 < dimension self ->
  Forall (fun source => positive_footprint source (dimension self)
                        /\ admits_at_most_requested source) sources ->
  exists states,
    AddAll MAX_TABLE_FILE_MEM sources self = Returns states
    /\ length states = length sources
    /\ Forall (fun self' => current_mem_ self' <= MAX_TABLE_FILE_MEM) states.
Proof.
  intros [_ Hmax] Hcur Hdim Hsrc. revert self Hcur Hdim Hsrc.
  induction sources as [|source sources IH]; intros self Hcur Hdim Hsrc.
  - exists []. repeat split. constructor.
  - inversion Hsrc as [|? ? [Hpos Hadm] Hrest]; subst.
    destruct (Add_within_budget source self Hmax Hcur Hdim Hpos Hadm)
      as (status & self' & Hadd & Hcur' & _ & Hschema).
    destruct (IH self') as (states & Hrun & Hlen & Hall).
    + exact Hcur'.
    + rewrite Hschema. exact Hdim.
    + rewrite Hschema. exact Hrest.
    + exists (self' :: states). cbn [AddAll]. rewrite Hadd.
      cbn [mbind outcome_bind]. rewrite Hrun. cbn [mbind outcome_bind mret outcome_ret].
      repeat split.
      * cbn. rewrite Hlen. reflexivity.
      * constructor; [lia | exact Hall].
Qed.

(** ** Delete *)

(** What one pass of the loop does to a group that holds the id: the
    entry at the first offset carrying the id goes, and only that one. *)
Lemma erase_found_present (doc_id : segment.doc_id_t) (width : Z) (v : segment.Vector) :
  doc_id ∈ segment.GetUids v ->
  exists (offset : nat) (bytes : segment.payload),
    segment.entries v !! offset = Some (doc_id, bytes)
    /\ (forall (j : nat) uid, (j < offset)%nat ->
          segment.GetUids v !! j = Some uid -> uid <> doc_id)
    /\ MemTableFile.erase_found doc_id width v
         = segment.mkVector (delete offset (segment.entries v))
    /\ S (length (delete offset (segment.entries v)))
         = length (segment.entries v).
Proof.
  intros Hin. unfold MemTableFile.erase_found.
  destruct (list_find_elem_of (fun uid => uid = doc_id) (segment.GetUids v) doc_id Hin eq_refl)
    as [[offset uid] Hfind].
  rewrite Hfind. apply list_find_Some in Hfind as (Hat & -> & Hfirst).
  unfold segment.GetUids in Hat. rewrite list_lookup_fmap in Hat.
  destruct (segment.entries v !! offset) as [[uid bytes]|] eqn:Hentry; [|discriminate].
  cbn in Hat. injection Hat as ->.
  exists offset, bytes. split; [exact Hentry|]. split; [|split].
  - intros j uid Hlt Hj. exact (Hfirst j uid Hj Hlt).
  - reflexivity.
  - rewrite length_delete by (rewrite Hentry; eauto).
    apply lookup_lt_Some in Hentry. lia.
Qed.

Lemma erase_found_absent (doc_id : segment.doc_id_t) (width : Z) (v : segment.Vector) :
  doc_id ∉ segment.GetUids v -> MemTableFile.erase_found doc_id width v = v.
Proof.
  intros Hnotin. unfold MemTableFile.erase_found.
  destruct (list_find _ _) as [[offset uid]|] eqn:Hfind; [|reflexivity].
  apply list_find_Some in Hfind as (Hat & -> & _).
  exfalso. apply Hnotin. apply list_elem_of_lookup. eauto.
Qed.

(** C5.  On a buffer that has its segment writer, [Delete] returns
    success for every id.  Every group that holds the id loses exactly one
    entry, the first one carrying the id; every other group is left as it
    was; exactly one tombstone, the id, is appended to the deleted-docs
    list; nothing else of the object changes.  When no group holds the id
    the map of groups is unchanged. *)
Theorem Delete_erases_and_tombstones
    (doc_id : segment.doc_id_t) (self : MemTableFile.t) (writer : segment.SegmentWriter) :
  MemTableFile.segment_writer_ptr_ self = Some writer ->
  exists segment',
    Delete doc_id self =
      Returns (Status_OK,
               MemTableFile.set_segment_writer_ptr
                 (Some (segment.set_segment segment' writer)) self)
    /\ segment.deleted_docs segment'
         = segment.deleted_docs (segment.GetSegment writer) ++ [doc_id]
    /\ (forall group v,
          segment.vectors (segment.GetSegment writer) !! group = Some v ->
          doc_id ∈ segment.GetUids v ->
          exists (offset : nat) (bytes : segment.payload),
            segment.entries v !! offset = Some (doc_id, bytes)
            /\ (forall (j : nat) uid, (j < offset)%nat ->
                  segment.GetUids v !! j = Some uid -> uid <> doc_id)
            /\ segment.vectors segment' !! group
                 = Some (segment.mkVector (delete offset (segment.entries v)))
            /\ S (length (delete offset (segment.entries v)))
                 = length (segment.entries v))
    /\ (forall group v,
          segment.vectors (segment.GetSegment writer) !! group = Some v ->
          doc_id ∉ segment.GetUids v ->
          segment.vectors segment' !! group = Some v)
    /\ (forall group,
          segment.vectors (segment.GetSegment writer) !! group = None ->
          segment.vectors segment' !! group = None)
    /\ ((forall group v,
           segment.vectors (segment.GetSegment writer) !! group = Some v ->
           doc_id ∉ segment.GetUids v) ->
        segment.vectors segment' = segment.vectors (segment.GetSegment writer)).
Proof.
  intros Hwriter. unfold MemTableFile.Delete. rewrite Hwriter.
  cbn [deref mbind outcome_bind mret outcome_ret].
  set (width := if IsBinaryMetricType _ then sizeof_uint8_t else sizeof_float).
  eexists. split; [reflexivity|].
  cbn [segment.AddDeleteDoc segment.deleted_docs segment.vectors].
  split; [reflexivity|]. split; [|split; [|split]].
  - intros group v Hgroup Hin.
    destruct (erase_found_present doc_id width v Hin)
      as (offset & bytes & Hentry & Hfirst & Herase & Hlen).
    exists offset, bytes. repeat split; try assumption.
    rewrite lookup_fmap, Hgroup. cbn. rewrite Herase. reflexivity.
  - intros group v Hgroup Hnotin.
    rewrite lookup_fmap, Hgroup. cbn.
    rewrite erase_found_absent by assumption. reflexivity.
  - intros group Hgroup. rewrite lookup_fmap, Hgroup. reflexivity.
  - intros Habsent. apply map_eq. intros group. rewrite lookup_fmap.
    destruct (segment.vectors (segment.GetSegment writer) !! group) as [v|] eqn:Hgroup;
      [|reflexivity].
    cbn. rewrite erase_found_absent by eauto. reflexivity.
Qed.

(** C10.  [Delete] never changes the byte counter: whenever it returns,
    it returns success and an object whose counter is the one before the
    call, whether or not an entry was erased; it fails to return only on
    an object without a segment writer. *)
Theorem Delete_keeps_counter (doc_id : segment.doc_id_t) (self : MemTableFile.t) :
  match Delete doc_id self with
  | Returns (status, self') =>
      status = Status_OK
      /\ MemTableFile.GetCurrentMem self' = MemTableFile.GetCurrentMem self
      /\ MemTableFile.table_file_schema_ self' = MemTableFile.table_file_schema_ self
  | Undefined => MemTableFile.segment_writer_ptr_ self = None
  end.
Proof.
  unfold MemTableFile.Delete.
  destruct (MemTableFile.segment_writer_ptr_ self) as [writer|]; cbn; auto.
Qed.

(** ** Flush *)

(** The classification [Serialize] writes into the schema. *)
Lemma Serialize_present (self : MemTableFile.t) (writer : segment.SegmentWriter) :
  MemTableFile.segment_writer_ptr_ self = Some writer ->
  let schema := MemTableFile.table_file_schema_ self in
  let engine := meta.engine_type_ schema in
  let file_type :=
    if negb (engine =? FAISS_IDMAP) && negb (engine =? FAISS_BIN_IDMAP)
    then (if SizeT.wrap (meta.index_file_size_ schema) <=? current_mem_ self
          then meta.TO_INDEX else meta.RAW)
    else meta.RAW in
  exists writer',
    Serialize self =
      Returns (meta.UpdateTableFile (MemTableFile.meta_ self)
                 (meta.set_file_type file_type schema),
               MemTableFile.set_segment_writer_ptr (Some writer')
                 (MemTableFile.set_table_file_schema
                    (meta.set_file_type file_type schema) self)).
Proof.
  intros Hwriter schema engine file_type.
  unfold MemTableFile.Serialize. rewrite Hwriter.
  cbn [deref mbind outcome_bind mret outcome_ret].
  destruct (SegmentWriter_Serialize writer) as [written writer1].
  fold schema. fold engine. unfold MemTableFile.GetCurrentMem.
  eexists. subst file_type.
  destruct (negb (engine =? FAISS_IDMAP) && negb (engine =? FAISS_BIN_IDMAP));
    reflexivity.
Qed.

(** C6.  On a buffer that has its segment writer and whose threshold
    [index_file_size_] is a byte count (not negative, within [size_t]),
    [Serialize] returns, and the classification it leaves in the schema is
    [RAW] when the engine type is [FAISS_IDMAP] or [FAISS_BIN_IDMAP],
    whatever the size; for every other engine type it is [TO_INDEX]
    exactly when the counter read at entry is at least [index_file_size_],
    and [RAW] otherwise. *)
Theorem Serialize_classifies (self : MemTableFile.t) (writer : segment.SegmentWriter) :
  MemTableFile.segment_writer_ptr_ self = Some writer ->
  SizeT.in_range (meta.index_file_size_ (MemTableFile.table_file_schema_ self)) ->
  exists status self',
    Serialize self = Returns (status, self')
    /\ let schema := MemTableFile.table_file_schema_ self in
       let size := MemTableFile.GetCurrentMem self in
       let file_type := meta.file_type_ (MemTableFile.table_file_schema_ self') in
       (meta.engine_type_ schema = FAISS_IDMAP
        \/ meta.engine_type_ schema = FAISS_BIN_IDMAP ->
        file_type = meta.RAW)
       /\ (meta.engine_type_ schema <> FAISS_IDMAP ->
           meta.engine_type_ schema <> FAISS_BIN_IDMAP ->
           (file_type = meta.TO_INDEX <-> meta.index_file_size_ schema <= size)
           /\ (file_type = meta.RAW <-> size < meta.index_file_size_ schema)).
Proof.
  intros Hwriter Hthreshold.
  destruct (Serialize_present self writer Hwriter) as [writer' Hrun].
  eexists _, _. split; [exact Hrun|].
  cbn [MemTableFile.table_file_schema_ MemTableFile.set_segment_writer_ptr
       MemTableFile.set_table_file_schema meta.file_type_ meta.set_file_type].
  unfold MemTableFile.GetCurrentMem. rewrite (wrap_in_range _ Hthreshold).
  destruct (Z.eqb_spec (meta.engine_type_ (MemTableFile.table_file_schema_ self))
              FAISS_IDMAP) as [Hid|Hid];
  destruct (Z.eqb_spec (meta.engine_type_ (MemTableFile.table_file_schema_ self))
              FAISS_BIN_IDMAP) as [Hbin|Hbin]; cbn [negb andb].
  1-3: split; [intros _; reflexivity | intros; contradiction].
  split; [intros [?|?]; contradiction|]. intros _ _.
  destruct (Z.leb_spec
              (meta.index_file_size_ (MemTableFile.table_file_schema_ self))
              (current_mem_ self)).
  - split; split; intros; try reflexivity; try lia; discriminate.
  - split; split; intros; try reflexivity; try lia; discriminate.
Qed.

(** The status [Serialize] returns is the catalog's, whatever the status
    of the durable write was. *)
Lemma Serialize_status_is_catalog_status
    (self : MemTableFile.t) (writer : segment.SegmentWriter) :
  MemTableFile.segment_writer_ptr_ self = Some writer ->
  exists status self',
    Serialize self = Returns (status, self')
    /\ status = meta.UpdateTableFile (MemTableFile.meta_ self)
                  (MemTableFile.table_file_schema_ self').
Proof.
  intros Hwriter.
  destruct (Serialize_present self writer Hwriter) as [writer' Hrun].
  eexists _, _. split; [exact Hrun | reflexivity].
Qed.

(** C8, as the code has it.  [Serialize] records nowhere that it ran: the
    object it returns has the counter and the dimension it had and still
    has its segment writer.  A later [Delete] returns success and appends
    its tombstone.  A later [Add] is decided by the tests it applied
    before the flush: it is rejected when the dimension is not positive,
    admits nothing when less than one vector fits, and otherwise asks the
    source for the quotient and counts what the source admitted. *)
Theorem Serialize_leaves_buffer_open
    (self flushed : MemTableFile.t) (status : Status) :
  Serialize self = Returns (status, flushed) ->
  current_mem_ flushed = current_mem_ self
  /\ dimension flushed = dimension self
  /\ (exists writer, MemTableFile.segment_writer_ptr_ flushed = Some writer)
  /\ (forall doc_id, exists writer segment',
        MemTableFile.segment_writer_ptr_ flushed = Some writer
        /\ Delete doc_id flushed =
             Returns (Status_OK,
                      MemTableFile.set_segment_writer_ptr
                        (Some (segment.set_segment segment' writer)) flushed)
        /\ segment.deleted_docs segment'
             = segment.deleted_docs (segment.GetSegment writer) ++ [doc_id])
  /\ (forall source,
        let size := VectorSource.SingleVectorSize source (dimension self) in
        (dimension self <= 0 ->
         Add source flushed =
           Returns (mkStatus DB_ERROR "Not able to create table file", flushed))
        /\ (0 < dimension self -> GetMemLeft self < size ->
            Add source flushed = Returns (Status_OK, flushed))
        /\ (0 < dimension self -> 0 < size <= GetMemLeft self ->
            GetMemLeft self / size < 2 ^ 53 ->
            forall result added writer,
              VectorSource.Add source (MemTableFile.segment_writer_ptr_ flushed)
                (MemTableFile.table_file_schema_ flushed) (GetMemLeft self / size)
              = (result, added, writer) ->
              Add source flushed =
                Returns (result,
                         if ok result
                         then MemTableFile.set_current_mem
                                (SizeT.wrap (current_mem_ self + added * size))
                                (MemTableFile.set_segment_writer_ptr writer flushed)
                         else MemTableFile.set_segment_writer_ptr writer flushed))).
Proof.
  intros Hrun.
  destruct (MemTableFile.segment_writer_ptr_ self) as [writer|] eqn:Hwriter.
  2: { unfold MemTableFile.Serialize in Hrun. rewrite Hwriter in Hrun. discriminate. }
  destruct (Serialize_present self writer Hwriter) as [writer' Hrun'].
  rewrite Hrun' in Hrun. injection Hrun as _ <-.
  set (flushed := MemTableFile.set_segment_writer_ptr _ _).
  assert (Hmem : current_mem_ flushed = current_mem_ self) by reflexivity.
  assert (Hdim : dimension flushed = dimension self) by reflexivity.
  assert (Hleft : GetMemLeft flushed = GetMemLeft self) by reflexivity.
  split; [exact Hmem|]. split; [exact Hdim|]. split; [exists writer'; reflexivity|].
  split.
  - intros doc_id. exists writer'. eexists. split; [reflexivity|].
    split; reflexivity.
  - intros source size. split; [|split].
    + intros Hle. unfold MemTableFile.Add. rewrite Hdim.
      destruct (Z.leb_spec (dimension self) 0); [reflexivity | lia].
    + intros Hpos Hfull. unfold MemTableFile.Add. rewrite Hdim, Hleft. fold size.
      destruct (Z.leb_spec (dimension self) 0); [lia|].
      destruct (Z.leb_spec size (GetMemLeft self)); [lia | reflexivity].
    + intros Hpos Hsize Hq result added writer1 Hcall.
      rewrite Add_admits; rewrite ?Hdim, ?Hleft; fold size; try assumption.
      rewrite Hcall. reflexivity.
Qed.

(** The counter [Serialize] classifies by is not reduced by the deletes
    that came before: flushing after a [Delete] classifies the file as
    flushing before it would have. *)
Lemma Delete_then_Serialize_classifies_alike
    (doc_id : segment.doc_id_t) (self self' flushed flushed' : MemTableFile.t)
    (deleted status status' : Status) :
  Delete doc_id self = Returns (deleted, self') ->
  Serialize self = Returns (status, flushed) ->
  Serialize self' = Returns (status', flushed') ->
  meta.file_type_ (MemTableFile.table_file_schema_ flushed')
  = meta.file_type_ (MemTableFile.table_file_schema_ flushed).
Proof.
  intros Hdelete Hrun Hrun'.
  destruct (MemTableFile.segment_writer_ptr_ self) as [writer|] eqn:Hwriter.
  2: { unfold MemTableFile.Serialize in Hrun. rewrite Hwriter in Hrun. discriminate. }
  unfold MemTableFile.Delete in Hdelete. rewrite Hwriter in Hdelete.
  cbn [deref mbind outcome_bind mret outcome_ret] in Hdelete.
  injection Hdelete as _ <-.
  destruct (Serialize_present self writer Hwriter) as [w Heq].
  rewrite Heq in Hrun. injection Hrun as _ <-.
  edestruct (Serialize_present
               (MemTableFile.set_segment_writer_ptr
                  (Some (segment.set_segment
                           (segment.AddDeleteDoc doc_id
                              (segment.mkSegment
                                 (MemTableFile.erase_found doc_id
                                    (if IsBinaryMetricType
                                          (meta.metric_type_
                                             (MemTableFile.table_file_schema_ self))
                                     then sizeof_uint8_t else sizeof_float)
                                  <$> segment.vectors (segment.GetSegment writer))
                                 (segment.deleted_docs (segment.GetSegment writer))))
                           writer)) self)) as [w' Heq']; [reflexivity|].
  rewrite Heq' in Hrun'. injection Hrun' as _ <-. reflexivity.
Qed.

(** ** Fullness *)

(** What [IsFull] computes: the float width, whatever the metric type. *)
Lemma IsFull_float_width (self : MemTableFile.t) :
  IsFull self = true <->
  GetMemLeft self < SizeT.wrap (dimension self * FLOAT_TYPE_SIZE).
Proof. unfold MemTableFile.IsFull. apply Z.ltb_lt. Qed.

(** For a standard metric type and a dimension whose byte size fits a
    [size_t], [IsFull] is the comparison with [bytesPerVector]. *)
Lemma IsFull_standard_metric (self : MemTableFile.t) :
  IsBinaryMetricType (meta.metric_type_ (MemTableFile.table_file_schema_ self)) = false ->
  SizeT.in_range (dimension self * FLOAT_TYPE_SIZE) ->
  IsFull self = true <->
  GetMemLeft self
  < bytesPerVector_spec
      (IsBinaryMetricType (meta.metric_type_ (MemTableFile.table_file_schema_ self)))
      (dimension self).
Proof.
  intros Hstd Hrange. rewrite IsFull_float_width, Hstd.
  rewrite wrap_in_range by assumption. reflexivity.
Qed.

End Properties.

(** * Instances *)

Lemma float_source_admits (available : Z) :
  0 <= available -> admits_at_most_requested (Samples.float_source available).
Proof.
  intros Havail writer schema n status added writer' Hn Hcall _.
  cbn in Hcall. injection Hcall as _ <- _. lia.
Defined.

(** C9 at the buffer whose catalog record could not be created. *)
Lemma Add_rejects_nonpositive_dimension_witness :
  meta.dimension_ (MemTableFile.table_file_schema_ Samples.unusable) <= 0
  /\ MemTableFile.Add Samples.budget (Samples.float_source 10) Samples.unusable
     = Returns (mkStatus DB_ERROR "Not able to create table file", Samples.unusable).
Proof.
  split; [vm_compute; discriminate|].
  apply (Add_rejects_nonpositive_dimension Samples.budget
           (Samples.float_source 10) Samples.unusable).
  vm_compute; discriminate.
Defined.

(** C3 at 56 of 64 bytes used: 8 bytes are left, a vector takes 16. *)
Lemma Add_without_room_witness :
  MemTableFile.GetMemLeft Samples.budget (Samples.filled 56) = 8
  /\ VectorSource.SingleVectorSize (Samples.float_source 10) 4 = 16
  /\ MemTableFile.Add Samples.budget (Samples.float_source 10) (Samples.filled 56)
     = Returns (Status_OK, Samples.filled 56).
Proof.
  split; [reflexivity|]. split; [reflexivity|].
  apply (Add_without_room Samples.budget (Samples.float_source 10) (Samples.filled 56));
    reflexivity.
Defined.

(** C2 at 10 of 64 bytes used: 54 bytes are left, so 3 vectors of 16
    bytes are asked for although the source holds 10. *)
Lemma Add_requests_floor_witness :
  MemTableFile.GetMemLeft Samples.budget (Samples.filled 10) / 16 = 3
  /\ MemTableFile.Add Samples.budget (Samples.float_source 10) (Samples.filled 10)
     = Returns (Status_OK, Samples.filled 58).
Proof.
  split; [reflexivity|].
  destruct (Add_requests_floor Samples.budget (Samples.float_source 10)
              (Samples.filled 10))
    as (status & added & writer & Hcall & _ & Hadd).
  - reflexivity.
  - split; vm_compute; discriminate.
  - reflexivity.
  - split; [reflexivity | vm_compute; discriminate].
  - rewrite Hadd. vm_compute in Hcall. injection Hcall as <- <- <-. reflexivity.
Defined.

(** C1 on a fresh buffer and a source of 10 vectors asked three times. *)
Lemma AddAll_within_budget_witness :
  exists states,
    AddAll Samples.budget
      [Samples.float_source 10; Samples.float_source 6; Samples.float_source 2]
      Samples.fresh = Returns states
    /\ length states = 3%nat
    /\ Forall (fun self' => MemTableFile.current_mem_ self' <= Samples.budget) states.
Proof.
  apply (AddAll_within_budget Samples.budget
           [Samples.float_source 10; Samples.float_source 6; Samples.float_source 2]
           Samples.fresh).
  - split; [vm_compute; discriminate | reflexivity].
  - split; vm_compute; discriminate.
  - reflexivity.
  - repeat (apply Forall_cons; split;
            [split; [reflexivity
                    | apply float_source_admits; vm_compute; discriminate] |]).
    apply Forall_nil; exact I.
Defined.

(** C5 at the buffer holding ids 10, 20, 10 in group [g] and 30 in [h]:
    deleting 10 removes the first entry of [g] only and leaves [h]. *)
Lemma Delete_erases_and_tombstones_witness :
  let writer := segment.mkSegmentWriter "/db/t/f1" Samples.live_segment in
  exists segment',
    MemTableFile.Delete Samples.is_binary 10 Samples.live =
      Returns (Status_OK,
               MemTableFile.set_segment_writer_ptr
                 (Some (segment.set_segment segment' writer)) Samples.live)
    /\ segment.deleted_docs segment' = [10]
    /\ segment.vectors segment' !! "g"
       = Some (segment.mkVector [(20, [2]); (10, [3])])
    /\ segment.vectors segment' !! "h" = Some (segment.mkVector [(30, [4])]).
Proof.
  intros writer.
  destruct (Delete_erases_and_tombstones Samples.is_binary 10 Samples.live writer)
    as (segment' & Hrun & Htomb & Hin & Hout & _).
  - reflexivity.
  - exists segment'. split; [exact Hrun|]. split; [exact Htomb|]. split.
    + destruct (Hin "g" (segment.mkVector [(10, [1]); (20, [2]); (10, [3])]))
        as (offset & bytes & Hentry & Hfirst & Hgroup & _).
      * reflexivity.
      * apply list_elem_of_here.
      * destruct offset as [|offset]; [exact Hgroup|].
        exfalso. apply (Hfirst 0%nat 10); [lia | reflexivity | reflexivity].
    + apply Hout; [reflexivity|].
      apply not_elem_of_cons. split; [discriminate | apply not_elem_of_nil].
Defined.

(** The conversion of the threshold at work: a threshold of -1 compares
    as [2^64 - 1], and a file of 40 bytes stays [RAW]. *)
Example Serialize_negative_threshold :
  let self := MemTableFile.mk "t" Samples.catalog Samples.options
                (meta.mkTableFileSchema "t" "f1" "/db/t/f1" 4 Samples.ivf 0 (-1)
                   meta.RAW)
                40 (Some (segment.new_SegmentWriter "/db/t/f1")) in
  MemTableFile.Serialize Samples.idmap Samples.bin_idmap
    Samples.write_ok Samples.cache self = Returns (Status_OK, self).
Proof. reflexivity. Qed.

(** C6 at the fresh buffer: engine [ivf], threshold 32, size 0. *)
Lemma Serialize_classifies_witness :
  exists status self',
    MemTableFile.Serialize Samples.idmap Samples.bin_idmap
      Samples.write_ok Samples.cache Samples.fresh = Returns (status, self')
    /\ meta.file_type_ (MemTableFile.table_file_schema_ self') = meta.RAW.
Proof.
  destruct (Serialize_classifies Samples.idmap Samples.bin_idmap
              Samples.write_ok Samples.cache Samples.fresh
              (segment.new_SegmentWriter "/db/t/f1"))
    as (status & self' & Hrun & _ & Hother).
  - reflexivity.
  - split; [vm_compute; discriminate | reflexivity].
  - exists status, self'. split; [exact Hrun|].
    apply Hother; [vm_compute; discriminate | vm_compute; discriminate | reflexivity].
Defined.

(** C8 as amended, at the fresh buffer: after the flush the source's 10
    vectors are offered and 4 are admitted. *)
Lemma Serialize_leaves_buffer_open_witness :
  MemTableFile.Serialize Samples.idmap Samples.bin_idmap
    Samples.write_ok Samples.cache Samples.fresh = Returns (Status_OK, Samples.fresh)
  /\ MemTableFile.Add Samples.budget (Samples.float_source 10) Samples.fresh
     = Returns (Status_OK, Samples.filled 64).
Proof.
  split; [reflexivity|].
  destruct (Serialize_leaves_buffer_open Samples.budget Samples.idmap
              Samples.bin_idmap Samples.is_binary Samples.write_ok Samples.cache
              Samples.fresh Samples.fresh Status_OK)
    as (_ & _ & _ & _ & Hadd).
  - reflexivity.
  - destruct (Hadd (Samples.float_source 10)) as (_ & _ & Hadmit).
    assert (Hroom : 0 < 16 <= MemTableFile.GetMemLeft Samples.budget Samples.fresh)
      by (split; [reflexivity | vm_compute; discriminate]).
    exact (Hadmit eq_refl Hroom eq_refl
             Status_OK 4 (Some (segment.new_SegmentWriter "/db/t/f1")) eq_refl).
Defined.

(** C8 as claimed fails: the flush of the fresh buffer succeeds, and the
    [Add] issued next returns success and raises the counter from 0 to 64,
    the [Delete] issued next returns success and records its tombstone. *)
Lemma flush_is_not_terminal :
  MemTableFile.Serialize Samples.idmap Samples.bin_idmap
    Samples.write_ok Samples.cache Samples.fresh = Returns (Status_OK, Samples.fresh)
  /\ (exists after,
        MemTableFile.Add Samples.budget (Samples.float_source 10) Samples.fresh
          = Returns (Status_OK, after)
        /\ MemTableFile.current_mem_ Samples.fresh = 0
        /\ MemTableFile.current_mem_ after = 64)
  /\ (exists after,
        MemTableFile.Delete Samples.is_binary 7 Samples.fresh
          = Returns (Status_OK, after)
        /\ (segment.deleted_docs <$>
            (segment.GetSegment <$> MemTableFile.segment_writer_ptr_ Samples.fresh))
           = Some []
        /\ (segment.deleted_docs <$>
            (segment.GetSegment <$> MemTableFile.segment_writer_ptr_ after))
           = Some [7]).
Proof.
  split; [reflexivity|]. split.
  - eexists. split; [reflexivity|]. split; reflexivity.
  - eexists. split; [reflexivity|]. split; reflexivity.
Qed.

(** C7 fails on the code: the durable write reports failure, the catalog
    update succeeds, and [Serialize] returns success. *)
Lemma Serialize_hides_write_failure :
  ok (Samples.write_fails (segment.new_SegmentWriter "/db/t/f1")).1 = false
  /\ MemTableFile.Serialize Samples.idmap Samples.bin_idmap
       Samples.write_fails Samples.cache Samples.fresh
     = Returns (Status_OK, Samples.fresh).
Proof. split; reflexivity. Qed.

(** C4 fails on the code for a binary metric type: with 8 bytes left and
    dimension 4, one binary vector (4 bytes) still fits, yet [IsFull]
    compares with 16 bytes and answers true. *)
Lemma IsFull_ignores_binary_metric :
  let self := Samples.binary_buffer in
  let schema := MemTableFile.table_file_schema_ self in
  let binary := Samples.is_binary (meta.metric_type_ schema) in
  binary = true
  /\ MemTableFile.GetMemLeft Samples.budget self = 8
  /\ bytesPerVector_spec binary (meta.dimension_ schema) = 4
  /\ MemTableFile.IsFull Samples.budget self = true
  /\ ~ (MemTableFile.IsFull Samples.budget self = true <->
        MemTableFile.GetMemLeft Samples.budget self
        < bytesPerVector_spec binary (meta.dimension_ schema)).
Proof.
  cbv zeta. repeat split; try reflexivity.
  intros [Hfull _]. specialize (Hfull eq_refl). vm_compute in Hfull. discriminate.
Qed.

(** The end-to-end example of the specification: dimension 4, budget 64,
    16 bytes a vector.  A source of 10 vectors fills a first buffer with 4
    and a second with 4, and leaves 2 for a third. *)
Example rotation :
  MemTableFile.Add Samples.budget (Samples.float_source 10) Samples.fresh
    = Returns (Status_OK, Samples.filled (4 * 16))
  /\ MemTableFile.Add Samples.budget (Samples.float_source 6) Samples.fresh
    = Returns (Status_OK, Samples.filled (4 * 16))
  /\ MemTableFile.Add Samples.budget (Samples.float_source 2) Samples.fresh
    = Returns (Status_OK, Samples.filled (2 * 16)).
Proof. repeat split; reflexivity. Qed.

(** * Further properties of the code *)

Section Further.

Variable MAX_TABLE_FILE_MEM : Z.
Variables FAISS_IDMAP FAISS_BIN_IDMAP : Z.
Variable IsBinaryMetricType : Z -> bool.
Variable SegmentWriter_Serialize : segment.SegmentWriter -> Status * segment.SegmentWriter.
Variable SegmentWriter_Cache : segment.SegmentWriter -> segment.SegmentWriter.

Local Abbreviation GetMemLeft := (MemTableFile.GetMemLeft MAX_TABLE_FILE_MEM).
Local Abbreviation IsFull := (MemTableFile.IsFull MAX_TABLE_FILE_MEM).
Local Abbreviation Add := (MemTableFile.Add MAX_TABLE_FILE_MEM).
Local Abbreviation Delete := (MemTableFile.Delete IsBinaryMetricType).
Local Abbreviation Serialize :=
  (MemTableFile.Serialize FAISS_IDMAP FAISS_BIN_IDMAP
     SegmentWriter_Serialize SegmentWriter_Cache).
Local Abbreviation dimension self :=
  (meta.dimension_ (MemTableFile.table_file_schema_ self)).
Local Abbreviation current_mem_ := MemTableFile.current_mem_.

(** ** Construction *)

(** X1.  The constructor swallows the status of the catalog call.  The
    counter starts at 0.  When the catalog call succeeds the object holds
    the record the catalog filled in and a new segment writer on that
    record's directory; when it fails the object keeps the
    default-constructed schema and has no segment writer. *)
Theorem new_outcome (table_id : string) (meta : meta.Meta) (options : DBOptions) :
  let created :=
    meta.CreateTableFile meta
      (meta.set_table_id table_id meta.default_TableFileSchema) in
  let self := MemTableFile.new table_id meta options in
  current_mem_ self = 0
  /\ MemTableFile.table_id_ self = table_id
  /\ (ok created.1 = true ->
      MemTableFile.table_file_schema_ self = created.2
      /\ MemTableFile.segment_writer_ptr_ self
         = Some (segment.new_SegmentWriter (meta.directory_ created.2))
      /\ live_segment_of self = Some (segment.mkSegment ∅ []))
  /\ (ok created.1 = false ->
      MemTableFile.table_file_schema_ self = meta.default_TableFileSchema
      /\ MemTableFile.segment_writer_ptr_ self = None).
Proof.
  cbv zeta. unfold MemTableFile.new, MemTableFile.CreateTableFile.
  cbn [MemTableFile.table_id_ MemTableFile.meta_].
  destruct (meta.CreateTableFile _ _) as [status schema]. cbn [fst snd].
  destruct (ok status) eqn:Hok; cbn; rewrite ?Hok; cbn;
    repeat split; intros; try discriminate; auto.
Qed.

(** X2.  [Delete] and [Serialize] dereference the segment writer without
    a test: on a constructed buffer they are defined exactly when the
    catalog call of the constructor succeeded. *)
Theorem new_then_dereference
    (table_id : string) (meta : meta.Meta) (options : DBOptions)
    (doc_id : segment.doc_id_t) :
  let created :=
    meta.CreateTableFile meta
      (meta.set_table_id table_id meta.default_TableFileSchema) in
  let self := MemTableFile.new table_id meta options in
  (Delete doc_id self = Undefined <-> ok created.1 = false)
  /\ (Serialize self = Undefined <-> ok created.1 = false).
Proof.
  cbv zeta. unfold MemTableFile.new, MemTableFile.CreateTableFile.
  cbn [MemTableFile.table_id_ MemTableFile.meta_].
  destruct (meta.CreateTableFile _ _) as [status schema]. cbn [fst].
  unfold MemTableFile.Delete, MemTableFile.Serialize.
  destruct (ok status) eqn:Hok; cbn; rewrite ?Hok; cbn.
  - destruct (SegmentWriter_Serialize _) as [written writer].
    split; split; discriminate.
  - split; split; reflexivity.
Qed.

(** ** Budget arithmetic *)

(** X3.  A buffer of dimension 0 is never reported full, whatever its
    counter, although [Add] rejects it whatever the source. *)
Theorem zero_dimension_never_full (self : MemTableFile.t) :
  dimension self = 0 ->
  IsFull self = false
  /\ forall source,
       Add source self =
         Returns (mkStatus DB_ERROR "Not able to create table file", self).
Proof.
  intros Hdim. split.
  - unfold MemTableFile.IsFull. rewrite Hdim. cbn [Z.mul].
    change (SizeT.wrap 0) with 0. apply Z.ltb_ge.
    pose proof (GetMemLeft_range MAX_TABLE_FILE_MEM self) as [Hlow _]. exact Hlow.
  - intros source. unfold MemTableFile.Add. rewrite Hdim. reflexivity.
Qed.

(** X4.  [GetMemLeft] subtracts without a test.  Once the counter has
    passed the budget the difference wraps around to [2^64] minus the
    excess, and [IsFull] answers false for every vector size up to that
    value: a buffer over its budget is not reported full. *)
Theorem over_budget_wraps (self : MemTableFile.t) :
  0 <= MAX_TABLE_FILE_MEM < current_mem_ self ->
  current_mem_ self < SizeT.modulus ->
  GetMemLeft self = SizeT.modulus - (current_mem_ self - MAX_TABLE_FILE_MEM)
  /\ (0 <= dimension self * FLOAT_TYPE_SIZE
           <= SizeT.modulus - (current_mem_ self - MAX_TABLE_FILE_MEM) ->
      IsFull self = false).
Proof.
  intros Hover Hrange.
  assert (Hleft : GetMemLeft self
                  = SizeT.modulus - (current_mem_ self - MAX_TABLE_FILE_MEM)).
  { unfold MemTableFile.GetMemLeft, SizeT.wrap.
    symmetry. apply (Z.mod_unique _ _ (-1)); rewrite modulus_value in *; lia. }
  split; [exact Hleft|].
  intros Hsize. unfold MemTableFile.IsFull. fold (GetMemLeft self). rewrite Hleft.
  apply Z.ltb_ge.
  rewrite wrap_in_range by (unfold SizeT.in_range; rewrite modulus_value in *; lia).
  lia.
Qed.

(** ** Admission: errors and edges *)

(** X5.  When the source reports a failure, [Add] returns the source's
    status and leaves the counter as it was, whatever count the source
    wrote; the writer is the one the source left behind. *)
Theorem Add_propagates_source_failure
    (source : VectorSource.t) (self : MemTableFile.t)
    (status : Status) (added : Z) (writer : option segment.SegmentWriter) :
  let size := VectorSource.SingleVectorSize source (dimension self) in
  0 < dimension self ->
  0 < size <= GetMemLeft self ->
  GetMemLeft self / size < 2 ^ 53 ->
  VectorSource.Add source (MemTableFile.segment_writer_ptr_ self)
    (MemTableFile.table_file_schema_ self) (GetMemLeft self / size)
  = (status, added, writer) ->
  ok status = false ->
  Add source self
  = Returns (status, MemTableFile.set_segment_writer_ptr writer self)
  /\ current_mem_ (MemTableFile.set_segment_writer_ptr writer self)
     = current_mem_ self.
Proof.
  intros size Hdim Hsize Hq Hcall Hfail.
  rewrite (Add_admits MAX_TABLE_FILE_MEM source self Hdim Hsize Hq).
  fold size. rewrite Hcall, Hfail. split; reflexivity.
Qed.

(** X6.  [Add] divides by the size the source reports without testing
    it: on a buffer of positive dimension a source that reports a vector
    size of 0 makes the call undefined (division by zero), whatever the
    counter. *)
Theorem Add_zero_size_undefined (source : VectorSource.t) (self : MemTableFile.t) :
  0 < dimension self ->
  VectorSource.SingleVectorSize source (dimension self) = 0 ->
  Add source self = Undefined.
Proof.
  intros Hdim Hzero. unfold MemTableFile.Add. rewrite Hzero.
  destruct (Z.leb_spec (dimension self) 0); [lia|].
  pose proof (GetMemLeft_range MAX_TABLE_FILE_MEM self) as [Hlow _].
  destruct (Z.leb_spec 0 (GetMemLeft self)); [reflexivity | lia].
Qed.

(** X7.  For a source whose vector size is the one [IsFull] uses,
    dimension times [FLOAT_TYPE_SIZE], the two agree: on a full buffer
    [Add] admits nothing and returns success, and on a buffer that is not
    full the count [Add] asks for is at least 1. *)
Theorem IsFull_agrees_with_Add (source : VectorSource.t) (self : MemTableFile.t) :
  let size := VectorSource.SingleVectorSize source (dimension self) in
  0 < dimension self ->
  size = SizeT.wrap (dimension self * FLOAT_TYPE_SIZE) ->
  (IsFull self = true -> Add source self = Returns (Status_OK, self))
  /\ (IsFull self = false -> 0 < size -> GetMemLeft self / size < 2 ^ 53 ->
      1 <= GetMemLeft self / size
      /\ Add source self =
           let '(status, added, writer) :=
             VectorSource.Add source (MemTableFile.segment_writer_ptr_ self)
               (MemTableFile.table_file_schema_ self) (GetMemLeft self / size) in
           Returns (status,
                    if ok status
                    then MemTableFile.set_current_mem
                           (SizeT.wrap (current_mem_ self + added * size))
                           (MemTableFile.set_segment_writer_ptr writer self)
                    else MemTableFile.set_segment_writer_ptr writer self)).
Proof.
  intros size Hdim Hsize. unfold MemTableFile.IsFull.
  fold (GetMemLeft self). rewrite <- Hsize. split.
  - intros Hfull%Z.ltb_lt. unfold MemTableFile.Add. fold size.
    destruct (Z.leb_spec (dimension self) 0); [lia|].
    destruct (Z.leb_spec size (GetMemLeft self)); [lia | reflexivity].
  - intros Hroom%Z.ltb_ge Hpos Hq. split.
    + apply Z.div_le_lower_bound; lia.
    + rewrite (Add_admits MAX_TABLE_FILE_MEM source self Hdim (conj Hpos Hroom) Hq).
      fold size. destruct (VectorSource.Add _ _ _ _) as [[status added] writer].
      reflexivity.
Qed.

(** X8.  When the source admits exactly the count it was asked for, what
    is left afterwards is the remainder of the division, less than one
    vector: a further [Add] with a source of the same vector size admits
    nothing and returns success. *)
Theorem Add_fills_the_buffer
    (source : VectorSource.t) (self : MemTableFile.t)
    (status : Status) (writer : option segment.SegmentWriter) :
  let size := VectorSource.SingleVectorSize source (dimension self) in
  MAX_TABLE_FILE_MEM < 2 ^ 53 ->
  0 <= current_mem_ self <= MAX_TABLE_FILE_MEM ->
  0 < dimension self ->
  0 < size <= GetMemLeft self ->
  VectorSource.Add source (MemTableFile.segment_writer_ptr_ self)
    (MemTableFile.table_file_schema_ self) (GetMemLeft self / size)
  = (status, GetMemLeft self / size, writer) ->
  ok status = true ->
  exists self',
    Add source self = Returns (status, self')
    /\ GetMemLeft self' = GetMemLeft self mod size
    /\ forall source',
         VectorSource.SingleVectorSize source' (dimension self) = size ->
         Add source' self' = Returns (Status_OK, self').
Proof.
  intros size Hmax Hcur Hdim Hsize Hcall Hok.
  assert (Hleft : GetMemLeft self = MAX_TABLE_FILE_MEM - current_mem_ self).
  { apply GetMemLeft_within; [rewrite modulus_value|]; lia. }
  assert (Hq : GetMemLeft self / size < 2 ^ 53).
  { apply Z.le_lt_trans with (GetMemLeft self); [|lia].
    apply Z.div_le_upper_bound; nia. }
  rewrite (Add_admits MAX_TABLE_FILE_MEM source self Hdim Hsize Hq).
  fold size. rewrite Hcall, Hok.
  pose proof (Z.div_mod (GetMemLeft self) size ltac:(lia)) as Hdm.
  pose proof (Z.mod_pos_bound (GetMemLeft self) size ltac:(lia)) as Hmod.
  eexists. split; [reflexivity|].
  cbn [MemTableFile.current_mem_ MemTableFile.set_segment_writer_ptr].
  set (self' := MemTableFile.set_current_mem _ _).
  assert (Hmem : current_mem_ self'
                 = current_mem_ self + GetMemLeft self / size * size).
  { subst self'. cbn [MemTableFile.current_mem_ MemTableFile.set_current_mem].
    apply wrap_in_range. unfold SizeT.in_range. rewrite modulus_value. nia. }
  assert (Hleft' : GetMemLeft self' = GetMemLeft self mod size).
  { rewrite GetMemLeft_within; [|rewrite modulus_value; lia|rewrite Hmem; nia].
    rewrite Hmem. lia. }
  split; [exact Hleft'|].
  intros source' Hsize'. unfold MemTableFile.Add.
  change (dimension self') with (dimension self). rewrite Hsize'.
  fold (GetMemLeft self'). rewrite Hleft'.
  destruct (Z.leb_spec (dimension self) 0); [lia|].
  destruct (Z.leb_spec size (GetMemLeft self mod size)); [lia | reflexivity].
Qed.

(** X9.  [Add] counts what the source reports, not what it asked for:
    when the source reports success with more vectors than the remaining
    budget holds, the counter passes the budget. *)
Theorem Add_trusts_the_source
    (source : VectorSource.t) (self : MemTableFile.t)
    (status : Status) (added : Z) (writer : option segment.SegmentWriter) :
  let size := VectorSource.SingleVectorSize source (dimension self) in
  MAX_TABLE_FILE_MEM < 2 ^ 53 ->
  0 <= current_mem_ self <= MAX_TABLE_FILE_MEM ->
  0 < dimension self ->
  0 < size <= GetMemLeft self ->
  VectorSource.Add source (MemTableFile.segment_writer_ptr_ self)
    (MemTableFile.table_file_schema_ self) (GetMemLeft self / size)
  = (status, added, writer) ->
  ok status = true ->
  GetMemLeft self < added * size ->
  current_mem_ self + added * size < SizeT.modulus ->
  exists self',
    Add source self = Returns (status, self')
    /\ current_mem_ self' = current_mem_ self + added * size
    /\ MAX_TABLE_FILE_MEM < current_mem_ self'.
Proof.
  intros size Hmax Hcur Hdim Hsize Hcall Hok Hmore Hfit.
  assert (Hleft : GetMemLeft self = MAX_TABLE_FILE_MEM - current_mem_ self).
  { apply GetMemLeft_within; [rewrite modulus_value|]; lia. }
  assert (Hq : GetMemLeft self / size < 2 ^ 53).
  { apply Z.le_lt_trans with (GetMemLeft self); [|lia].
    apply Z.div_le_upper_bound; nia. }
  rewrite (Add_admits MAX_TABLE_FILE_MEM source self Hdim Hsize Hq).
  fold size. rewrite Hcall, Hok. eexists. split; [reflexivity|].
  cbn [MemTableFile.current_mem_ MemTableFile.set_current_mem
       MemTableFile.set_segment_writer_ptr].
  rewrite wrap_in_range by (unfold SizeT.in_range; nia).
  split; [reflexivity | lia].
Qed.

(** X10.  Along a sequence of [Add] calls, under the assumptions of the
    budget invariant, the counter never decreases: the counter after a
    call is at least the counter before the first call and at least the
    counter after every earlier call. *)
Theorem AddAll_counter_monotone (sources : list VectorSource.t) (self : MemTableFile.t) :
  0 <= MAX_TABLE_FILE_MEM < 2 ^ 53 ->
  0 <= current_mem_ self <= MAX_TABLE_FILE_MEM ->
  0 < dimension self ->
  Forall (fun source => positive_footprint source (dimension self)
                        /\ admits_at_most_requested source) sources ->
  exists states,
    AddAll MAX_TABLE_FILE_MEM sources self = Returns states
    /\ Forall (fun self' => current_mem_ self <= current_mem_ self') states
    /\ forall (i j : nat) earlier later,
         (i <= j)%nat -> states !! i = Some earlier -> states !! j = Some later ->
         current_mem_ earlier <= current_mem_ later.
Proof.
  intros [_ Hmax] Hcur Hdim Hsrc. revert self Hcur Hdim Hsrc.
  induction sources as [|source sources IH]; intros self Hcur Hdim Hsrc.
  - exists []. split; [reflexivity|]. split; [constructor|].
    intros i j earlier later _ Hi. rewrite lookup_nil in Hi. discriminate.
  - inversion Hsrc as [|? ? [Hpos Hadm] Hrest]; subst.
    destruct (Add_within_budget MAX_TABLE_FILE_MEM source self Hmax Hcur Hdim Hpos Hadm)
      as (status & self' & Hadd & Hcur' & Hgrow & Hschema).
    destruct (IH self') as (states & Hrun & Hfrom & Hpairs).
    + exact Hcur'.
    + rewrite Hschema. exact Hdim.
    + rewrite Hschema. exact Hrest.
    + exists (self' :: states). cbn [AddAll]. rewrite Hadd.
      cbn [mbind outcome_bind]. rewrite Hrun. cbn [mbind outcome_bind mret outcome_ret].
      split; [reflexivity|]. split.
      * constructor; [exact Hgrow|].
        eapply Forall_impl; [exact Hfrom|]. cbn. intros s Hs. lia.
      * intros i j earlier later Hij Hi Hj.
        destruct i as [|i], j as [|j]; cbn in Hi, Hj.
        -- injection Hi as <-. injection Hj as <-. lia.
        -- injection Hi as <-.
           rewrite Forall_lookup in Hfrom. exact (Hfrom j later Hj).
        -- lia.
        -- apply (Hpairs i j); [lia | exact Hi | exact Hj].
Qed.

(** ** Delete: what goes and what stays *)

(** [Delete] on a buffer that has its segment writer, written out. *)
Lemma Delete_present
    (doc_id : segment.doc_id_t) (self : MemTableFile.t) (writer : segment.SegmentWriter) :
  MemTableFile.segment_writer_ptr_ self = Some writer ->
  let width :=
    if IsBinaryMetricType (meta.metric_type_ (MemTableFile.table_file_schema_ self))
    then sizeof_uint8_t else sizeof_float in
  Delete doc_id self =
    Returns (Status_OK,
             MemTableFile.set_segment_writer_ptr
               (Some (segment.set_segment
                        (segment.mkSegment
                           (MemTableFile.erase_found doc_id width
                              <$> segment.vectors (segment.GetSegment writer))
                           (segment.deleted_docs (segment.GetSegment writer)
                              ++ [doc_id]))
                        writer)) self).
Proof.
  intros Hwriter width. unfold MemTableFile.Delete. rewrite Hwriter. reflexivity.
Qed.

(** The loop body on a non-empty group: the head goes when it carries the
    id, otherwise the search moves on. *)
Lemma erase_found_cons (doc_id : segment.doc_id_t) (width : Z)
    (e : segment.doc_id_t * segment.payload) (l : list (segment.doc_id_t * segment.payload)) :
  segment.entries (MemTableFile.erase_found doc_id width (segment.mkVector (e :: l)))
  = if decide (e.1 = doc_id) then l
    else e :: segment.entries
                (MemTableFile.erase_found doc_id width (segment.mkVector l)).
Proof.
  unfold MemTableFile.erase_found, segment.GetUids. cbn [segment.entries].
  csimpl. destruct (decide (e.1 = doc_id)) as [Heq|Hne]; [reflexivity|].
  destruct (list_find _ l.*1) as [[offset uid]|]; reflexivity.
Qed.

Lemma erase_found_nil (doc_id : segment.doc_id_t) (width : Z) :
  segment.entries (MemTableFile.erase_found doc_id width (segment.mkVector [])) = [].
Proof. reflexivity. Qed.

(** The entries of other ids are kept, in their order; of the entries
    carrying the id one goes, if there is any. *)
Lemma erase_found_filter (doc_id : segment.doc_id_t) (width : Z) (v : segment.Vector) :
  filter (fun e => e.1 <> doc_id)
    (segment.entries (MemTableFile.erase_found doc_id width v))
  = filter (fun e => e.1 <> doc_id) (segment.entries v)
  /\ length (filter (fun e => e.1 = doc_id)
               (segment.entries (MemTableFile.erase_found doc_id width v)))
     = pred (length (filter (fun e => e.1 = doc_id) (segment.entries v))).
Proof.
  destruct v as [l]. cbn [segment.entries]. induction l as [|e l [IHkeep IHcount]].
  - split; reflexivity.
  - rewrite erase_found_cons. destruct (decide (e.1 = doc_id)) as [Heq|Hne].
    + split.
      * rewrite (filter_cons_False (fun e => e.1 <> doc_id)); [reflexivity|].
        intros Hne. exact (Hne Heq).
      * rewrite (filter_cons_True (fun e => e.1 = doc_id)) by exact Heq.
        reflexivity.
    + split.
      * rewrite !(filter_cons_True (fun e => e.1 <> doc_id)) by exact Hne.
        rewrite IHkeep. reflexivity.
      * rewrite !(filter_cons_False (fun e => e.1 = doc_id)) by exact Hne.
        exact IHcount.
Qed.

(** X11.  In every group [Delete] keeps all entries of other ids, in
    their order, and removes one entry carrying the id when the group has
    any: further entries with the same id in that group stay in the live
    buffer. *)
Theorem Delete_spares_other_entries
    (doc_id : segment.doc_id_t) (self : MemTableFile.t) (writer : segment.SegmentWriter) :
  MemTableFile.segment_writer_ptr_ self = Some writer ->
  exists self' segment',
    Delete doc_id self = Returns (Status_OK, self')
    /\ live_segment_of self' = Some segment'
    /\ forall group v,
         segment.vectors (segment.GetSegment writer) !! group = Some v ->
         exists v',
           segment.vectors segment' !! group = Some v'
           /\ filter (fun e => e.1 <> doc_id) (segment.entries v')
              = filter (fun e => e.1 <> doc_id) (segment.entries v)
           /\ length (filter (fun e => e.1 = doc_id) (segment.entries v'))
              = pred (length (filter (fun e => e.1 = doc_id) (segment.entries v))).
Proof.
  intros Hwriter. rewrite (Delete_present doc_id self writer Hwriter).
  eexists _, _. split; [reflexivity|]. split; [reflexivity|].
  intros group v Hgroup.
  unfold segment.set_segment. cbn [segment.GetSegment segment.segment_ptr_ segment.vectors].
  rewrite lookup_fmap. fold (segment.GetSegment writer). rewrite Hgroup.
  eexists. split; [reflexivity|].
  apply erase_found_filter.
Qed.

(** X12.  A sequence of [Delete] calls on a buffer that has its segment
    writer runs to its end; the deleted-docs list grows by the ids of the
    calls, in call order and with their repetitions, and the counter, the
    schema and the names of the groups are what they were: deletes free
    no budget, and the buffer is reported full afterwards exactly when it
    was before. *)
Theorem DeleteAll_records_every_call
    (ids : list segment.doc_id_t) (self : MemTableFile.t) (live : segment.Segment) :
  live_segment_of self = Some live ->
  exists self' live',
    DeleteAll IsBinaryMetricType ids self = Returns self'
    /\ live_segment_of self' = Some live'
    /\ segment.deleted_docs live' = segment.deleted_docs live ++ ids
    /\ dom (segment.vectors live') = dom (segment.vectors live)
    /\ current_mem_ self' = current_mem_ self
    /\ MemTableFile.table_file_schema_ self' = MemTableFile.table_file_schema_ self
    /\ IsFull self' = IsFull self.
Proof.
  intros Hlive.
  enough (exists self' live',
    DeleteAll IsBinaryMetricType ids self = Returns self'
    /\ live_segment_of self' = Some live'
    /\ segment.deleted_docs live' = segment.deleted_docs live ++ ids
    /\ dom (segment.vectors live') = dom (segment.vectors live)
    /\ current_mem_ self' = current_mem_ self
    /\ MemTableFile.table_file_schema_ self' = MemTableFile.table_file_schema_ self)
    as (self' & live' & Hrun & Hlive' & Htomb & Hdom & Hmem & Hschema).
  { exists self', live'. repeat (split; [assumption|]).
    unfold MemTableFile.IsFull, MemTableFile.GetMemLeft.
    rewrite Hmem, Hschema. reflexivity. }
  revert self live Hlive. induction ids as [|doc_id ids IH]; intros self live Hlive.
  - exists self, live. rewrite app_nil_r. repeat split; assumption.
  - unfold live_segment_of in Hlive.
    destruct (MemTableFile.segment_writer_ptr_ self) as [writer|] eqn:Hwriter;
      [|discriminate].
    cbn in Hlive. injection Hlive as <-.
    cbn [DeleteAll]. rewrite (Delete_present doc_id self writer Hwriter).
    cbn [mbind outcome_bind].
    set (next := MemTableFile.set_segment_writer_ptr _ self).
    destruct (IH next _ eq_refl)
      as (self' & live' & Hrun & Hlive' & Htomb & Hdom & Hmem & Hschema).
    exists self', live'. split; [exact Hrun|]. split; [exact Hlive'|].
    split; [|split; [|split]].
    + rewrite Htomb. cbn [segment.deleted_docs segment.GetSegment
                          segment.set_segment segment.segment_ptr_].
      rewrite <- app_assoc. reflexivity.
    + rewrite Hdom. cbn [segment.vectors segment.GetSegment
                         segment.set_segment segment.segment_ptr_].
      apply dom_fmap_L.
    + rewrite Hmem. reflexivity.
    + rewrite Hschema. reflexivity.
Qed.

(** Erasing the first entry of one id and the first entry of another can
    be done in either order. *)
Lemma erase_found_commute (a b : segment.doc_id_t) (width : Z) (v : segment.Vector) :
  MemTableFile.erase_found a width (MemTableFile.erase_found b width v)
  = MemTableFile.erase_found b width (MemTableFile.erase_found a width v).
Proof.
  destruct (decide (a = b)) as [->|Hab]; [reflexivity|].
  pose (ef := fun id l =>
          segment.entries (MemTableFile.erase_found id width (segment.mkVector l))).
  assert (Hcons : forall id e l,
            ef id (e :: l) = if decide (e.1 = id) then l else e :: ef id l).
  { intros id e l. apply erase_found_cons. }
  assert (Heta : forall id v',
            MemTableFile.erase_found id width v'
            = segment.mkVector (ef id (segment.entries v'))).
  { intros id [l]. subst ef. cbn beta. cbn [segment.entries].
    destruct (MemTableFile.erase_found id width _). reflexivity. }
  clearbody ef.
  rewrite (Heta a (MemTableFile.erase_found b width v)).
  rewrite (Heta b (MemTableFile.erase_found a width v)).
  rewrite (Heta b v), (Heta a v). cbn [segment.entries]. f_equal.
  induction (segment.entries v) as [|e l IH].
  - assert (Hnil : forall id, ef id [] = []).
    { intros id. specialize (Heta id (segment.mkVector [])).
      cbn [segment.entries] in Heta.
      change (MemTableFile.erase_found id width (segment.mkVector []))
        with (segment.mkVector []) in Heta.
      injection Heta as <-. reflexivity. }
    rewrite !Hnil. reflexivity.
  - rewrite !Hcons.
    destruct (decide (e.1 = b)) as [Hb|Hb], (decide (e.1 = a)) as [Ha|Ha].
    + congruence.
    + rewrite Hcons, decide_True by exact Hb. reflexivity.
    + rewrite Hcons, decide_True by exact Ha. reflexivity.
    + rewrite !Hcons.
      rewrite (decide_False (P := e.1 = a)) by exact Ha.
      rewrite (decide_False (P := e.1 = b)) by exact Hb.
      rewrite IH. reflexivity.
Qed.

(** X13.  Two [Delete] calls leave the same entries in the groups in
    whichever order they are issued; only the order of the two tombstones
    differs. *)
Theorem Delete_order_only_shows_in_tombstones
    (a b : segment.doc_id_t) (self : MemTableFile.t) (live : segment.Segment) :
  live_segment_of self = Some live ->
  exists first_a first_b live_a live_b,
    DeleteAll IsBinaryMetricType [a; b] self = Returns first_a
    /\ DeleteAll IsBinaryMetricType [b; a] self = Returns first_b
    /\ live_segment_of first_a = Some live_a
    /\ live_segment_of first_b = Some live_b
    /\ segment.vectors live_a = segment.vectors live_b
    /\ segment.deleted_docs live_a = segment.deleted_docs live ++ [a; b]
    /\ segment.deleted_docs live_b = segment.deleted_docs live ++ [b; a].
Proof.
  intros Hlive. unfold live_segment_of in Hlive.
  destruct (MemTableFile.segment_writer_ptr_ self) as [writer|] eqn:Hwriter;
    [|discriminate].
  cbn in Hlive. injection Hlive as <-.
  cbn [DeleteAll].
  rewrite (Delete_present a self writer Hwriter), (Delete_present b self writer Hwriter).
  cbn [mbind outcome_bind].
  erewrite !Delete_present by reflexivity.
  cbn [mbind outcome_bind mret outcome_ret].
  eexists _, _, _, _. split; [reflexivity|]. split; [reflexivity|].
  split; [reflexivity|]. split; [reflexivity|].
  unfold segment.set_segment.
  cbn [segment.vectors segment.deleted_docs segment.GetSegment segment.segment_ptr_
       MemTableFile.table_file_schema_ MemTableFile.set_segment_writer_ptr].
  split; [|split].
  - apply map_eq. intros group. rewrite !lookup_fmap.
    destruct (segment.vectors (segment.GetSegment writer) !! group) as [v|];
      [|reflexivity].
    cbn [fmap option_fmap option_map]. f_equal.
    apply erase_found_commute.
  - rewrite <- app_assoc. reflexivity.
  - rewrite <- app_assoc. reflexivity.
Qed.

(** ** Flush: what is written and what is returned *)

(** X14.  [Serialize] writes the classification into the schema before
    it calls the catalog and does not take it back: whatever the catalog
    answers, the status returned is the catalog's verdict on the schema
    the object now holds, that schema differs from the old one in
    [file_type_] only, and the counter, table id, catalog handle and
    options are untouched. *)
Theorem Serialize_keeps_classification_on_failure
    (self flushed : MemTableFile.t) (status : Status) :
  Serialize self = Returns (status, flushed) ->
  status = meta.UpdateTableFile (MemTableFile.meta_ self)
             (MemTableFile.table_file_schema_ flushed)
  /\ MemTableFile.table_file_schema_ flushed
     = meta.set_file_type
         (meta.file_type_ (MemTableFile.table_file_schema_ flushed))
         (MemTableFile.table_file_schema_ self)
  /\ current_mem_ flushed = current_mem_ self
  /\ MemTableFile.table_id_ flushed = MemTableFile.table_id_ self
  /\ MemTableFile.meta_ flushed = MemTableFile.meta_ self
  /\ MemTableFile.options_ flushed = MemTableFile.options_ self.
Proof.
  intros Hrun.
  destruct (MemTableFile.segment_writer_ptr_ self) as [writer|] eqn:Hwriter.
  2: { unfold MemTableFile.Serialize in Hrun. rewrite Hwriter in Hrun. discriminate. }
  destruct (Serialize_present FAISS_IDMAP FAISS_BIN_IDMAP SegmentWriter_Serialize
              SegmentWriter_Cache self writer Hwriter) as [writer' Heq].
  rewrite Heq in Hrun. injection Hrun as <- <-.
  repeat split; reflexivity.
Qed.

(** X15.  A second [Serialize] on the flushed object is defined and
    leaves the schema, and so the classification, as the first one set
    it. *)
Theorem Serialize_twice_same_classification
    (self flushed : MemTableFile.t) (status : Status) :
  Serialize self = Returns (status, flushed) ->
  exists status' flushed',
    Serialize flushed = Returns (status', flushed')
    /\ MemTableFile.table_file_schema_ flushed'
       = MemTableFile.table_file_schema_ flushed.
Proof.
  intros Hrun.
  destruct (MemTableFile.segment_writer_ptr_ self) as [writer|] eqn:Hwriter.
  2: { unfold MemTableFile.Serialize in Hrun. rewrite Hwriter in Hrun. discriminate. }
  destruct (Serialize_present FAISS_IDMAP FAISS_BIN_IDMAP SegmentWriter_Serialize
              SegmentWriter_Cache self writer Hwriter) as [writer' Heq].
  rewrite Heq in Hrun. injection Hrun as _ Hflushed.
  assert (Hwriter' : MemTableFile.segment_writer_ptr_ flushed = Some writer')
    by (rewrite <- Hflushed; reflexivity).
  destruct (Serialize_present FAISS_IDMAP FAISS_BIN_IDMAP SegmentWriter_Serialize
              SegmentWriter_Cache flushed writer' Hwriter') as [writer'' Heq'].
  eexists _, _. split; [exact Heq'|]. rewrite <- Hflushed.
  cbn [MemTableFile.table_file_schema_ MemTableFile.set_segment_writer_ptr
       MemTableFile.set_table_file_schema MemTableFile.current_mem_
       meta.engine_type_ meta.index_file_size_ meta.set_file_type].
  destruct (negb _ && negb _); [destruct (_ <=? _)|]; reflexivity.
Qed.

End Further.

(** * Instances of the further properties *)

(** X3 at the buffer whose catalog record could not be created. *)
Lemma zero_dimension_never_full_witness :
  MemTableFile.IsFull Samples.budget Samples.unusable = false
  /\ forall source,
       MemTableFile.Add Samples.budget source Samples.unusable =
         Returns (mkStatus DB_ERROR "Not able to create table file", Samples.unusable).
Proof.
  apply (zero_dimension_never_full Samples.budget Samples.unusable). reflexivity.
Defined.

(** X4 at 70 bytes counted against a budget of 64. *)
Lemma over_budget_wraps_witness :
  MemTableFile.GetMemLeft Samples.budget (Samples.filled 70) = 2 ^ 64 - 6
  /\ MemTableFile.IsFull Samples.budget (Samples.filled 70) = false.
Proof.
  destruct (over_budget_wraps Samples.budget (Samples.filled 70)) as [Hleft Hfull].
  - split; [vm_compute; discriminate | reflexivity].
  - reflexivity.
  - split; [exact Hleft|]. apply Hfull. split; vm_compute; discriminate.
Defined.

(** X5 at the fresh buffer and a source that fails. *)
Lemma Add_propagates_source_failure_witness :
  MemTableFile.Add Samples.budget Samples.failing_source Samples.fresh
  = Returns (mkStatus (OTHER 9) "source failed", Samples.fresh).
Proof.
  destruct (Add_propagates_source_failure Samples.budget Samples.failing_source
              Samples.fresh (mkStatus (OTHER 9) "source failed") 0
              (Some (segment.new_SegmentWriter "/db/t/f1")))
    as [Hadd _].
  - reflexivity.
  - split; [reflexivity | vm_compute; discriminate].
  - reflexivity.
  - reflexivity.
  - reflexivity.
  - exact Hadd.
Defined.

(** X6 at the fresh buffer and a source without data. *)
Lemma Add_zero_size_undefined_witness :
  MemTableFile.Add Samples.budget Samples.empty_source Samples.fresh = Undefined.
Proof.
  apply (Add_zero_size_undefined Samples.budget Samples.empty_source Samples.fresh);
    reflexivity.
Defined.

(** X7 at 56 of 64 bytes used, where [IsFull] answers true. *)
Lemma IsFull_agrees_with_Add_witness :
  MemTableFile.IsFull Samples.budget (Samples.filled 56) = true
  /\ MemTableFile.Add Samples.budget (Samples.float_source 10) (Samples.filled 56)
     = Returns (Status_OK, Samples.filled 56).
Proof.
  split; [reflexivity|].
  destruct (IsFull_agrees_with_Add Samples.budget (Samples.float_source 10)
              (Samples.filled 56)) as [Hfull _].
  - reflexivity.
  - reflexivity.
  - apply Hfull. reflexivity.
Defined.

(** X8 at the fresh buffer: 4 vectors asked for and admitted, nothing left. *)
Lemma Add_fills_the_buffer_witness :
  exists self',
    MemTableFile.Add Samples.budget (Samples.float_source 10) Samples.fresh
    = Returns (Status_OK, self')
    /\ MemTableFile.GetMemLeft Samples.budget self' = 0
    /\ MemTableFile.Add Samples.budget (Samples.float_source 6) self'
       = Returns (Status_OK, self').
Proof.
  destruct (Add_fills_the_buffer Samples.budget (Samples.float_source 10)
              Samples.fresh Status_OK (Some (segment.new_SegmentWriter "/db/t/f1")))
    as (self' & Hadd & Hleft & Hnext).
  - reflexivity.
  - split; vm_compute; discriminate.
  - reflexivity.
  - split; [reflexivity | vm_compute; discriminate].
  - reflexivity.
  - reflexivity.
  - exists self'. split; [exact Hadd|]. split; [exact Hleft|].
    apply Hnext. reflexivity.
Defined.

(** X9 at 10 of 64 bytes used: 3 vectors asked for, 4 reported. *)
Lemma Add_trusts_the_source_witness :
  exists self',
    MemTableFile.Add Samples.budget Samples.overrunning_source (Samples.filled 10)
    = Returns (Status_OK, self')
    /\ MemTableFile.current_mem_ self' = 74
    /\ Samples.budget < MemTableFile.current_mem_ self'.
Proof.
  apply (Add_trusts_the_source Samples.budget Samples.overrunning_source
           (Samples.filled 10) Status_OK 4
           (Some (segment.new_SegmentWriter "/db/t/f1"))).
  - reflexivity.
  - split; vm_compute; discriminate.
  - reflexivity.
  - split; [reflexivity | vm_compute; discriminate].
  - reflexivity.
  - reflexivity.
  - reflexivity.
  - reflexivity.
Defined.

(** X10 on a fresh buffer and a source of 10 vectors asked three times. *)
Lemma AddAll_counter_monotone_witness :
  exists states,
    AddAll Samples.budget
      [Samples.float_source 10; Samples.float_source 6; Samples.float_source 2]
      Samples.fresh = Returns states
    /\ Forall (fun self' => 0 <= MemTableFile.current_mem_ self') states.
Proof.
  destruct (AddAll_counter_monotone Samples.budget
              [Samples.float_source 10; Samples.float_source 6; Samples.float_source 2]
              Samples.fresh) as (states & Hrun & Hfrom & _).
  - split; [vm_compute; discriminate | reflexivity].
  - split; vm_compute; discriminate.
  - reflexivity.
  - repeat (apply Forall_cons; split;
            [split; [reflexivity
                    | apply float_source_admits; vm_compute; discriminate] |]).
    apply Forall_nil; exact I.
  - exists states. split; [exact Hrun | exact Hfrom].
Defined.

(** X11 at the buffer holding ids 10, 20, 10 in group [g]. *)
Lemma Delete_spares_other_entries_witness :
  exists self' segment',
    MemTableFile.Delete Samples.is_binary 10 Samples.live = Returns (Status_OK, self')
    /\ live_segment_of self' = Some segment'.
Proof.
  destruct (Delete_spares_other_entries Samples.is_binary 10 Samples.live
              (segment.mkSegmentWriter "/db/t/f1" Samples.live_segment))
    as (self' & segment' & Hrun & Hlive & _).
  - reflexivity.
  - exists self', segment'. split; [exact Hrun | exact Hlive].
Defined.

(** X12 at the same buffer: three deletes, one id twice. *)
Lemma DeleteAll_records_every_call_witness :
  exists self' live',
    DeleteAll Samples.is_binary [10; 10; 5] Samples.live = Returns self'
    /\ live_segment_of self' = Some live'
    /\ segment.deleted_docs live' = [10; 10; 5]
    /\ MemTableFile.current_mem_ self' = 48.
Proof.
  destruct (DeleteAll_records_every_call Samples.budget Samples.is_binary
              [10; 10; 5] Samples.live Samples.live_segment)
    as (self' & live' & Hrun & Hlive & Htomb & _ & Hmem & _).
  - reflexivity.
  - exists self', live'. split; [exact Hrun|]. split; [exact Hlive|].
    split; [exact Htomb | exact Hmem].
Defined.

(** X13 at the same buffer, deleting 10 and 30 in both orders. *)
Lemma Delete_order_only_shows_in_tombstones_witness :
  exists first_a first_b live_a live_b,
    DeleteAll Samples.is_binary [10; 30] Samples.live = Returns first_a
    /\ DeleteAll Samples.is_binary [30; 10] Samples.live = Returns first_b
    /\ live_segment_of first_a = Some live_a
    /\ live_segment_of first_b = Some live_b
    /\ segment.vectors live_a = segment.vectors live_b
    /\ segment.deleted_docs live_a = [10; 30]
    /\ segment.deleted_docs live_b = [30; 10].
Proof.
  apply (Delete_order_only_shows_in_tombstones Samples.is_binary 10 30
           Samples.live Samples.live_segment).
  reflexivity.
Defined.

(** X14 at the fresh buffer flushed against a catalog that rejects the
    update: the failure is returned, the classification stays written. *)
Lemma Serialize_keeps_classification_on_failure_witness :
  let self := MemTableFile.mk "t" Samples.failing_catalog Samples.options
                (meta.mkTableFileSchema "t" "f1" "/db/t/f1" 4 Samples.ivf 0 32
                   meta.RAW)
                40 (Some (segment.new_SegmentWriter "/db/t/f1")) in
  exists flushed,
    MemTableFile.Serialize Samples.idmap Samples.bin_idmap
      Samples.write_ok Samples.cache self
    = Returns (mkStatus (OTHER 7) "catalog down", flushed)
    /\ meta.file_type_ (MemTableFile.table_file_schema_ flushed) = meta.TO_INDEX
    /\ MemTableFile.current_mem_ flushed = 40.
Proof.
  intros self.
  set (flushed :=
         MemTableFile.set_table_file_schema
           (meta.set_file_type meta.TO_INDEX (MemTableFile.table_file_schema_ self))
           self).
  destruct (Serialize_keeps_classification_on_failure Samples.idmap Samples.bin_idmap
              Samples.write_ok Samples.cache self flushed
              (mkStatus (OTHER 7) "catalog down"))
    as (_ & _ & Hmem & _).
  - reflexivity.
  - exists flushed. split; [reflexivity|]. split; [reflexivity | exact Hmem].
Defined.

(** X15 at the fresh buffer. *)
Lemma Serialize_twice_same_classification_witness :
  exists status' flushed',
    MemTableFile.Serialize Samples.idmap Samples.bin_idmap
      Samples.write_ok Samples.cache Samples.fresh = Returns (status', flushed')
    /\ MemTableFile.table_file_schema_ flushed'
       = MemTableFile.table_file_schema_ Samples.fresh.
Proof.
  apply (Serialize_twice_same_classification Samples.idmap Samples.bin_idmap
           Samples.write_ok Samples.cache Samples.fresh Samples.fresh Status_OK).
  reflexivity.
Defined.
